(** * QR code generator (qr_gui.py): the [QRCodeGenerator] class

    A shallow embedding of the class [QRCodeGenerator] of [src/qr_gui.py]:
    [validate_url], [format_url], [generate_qr_code], [display_qr_info] and
    the constructor.  Python strings are sequences of Unicode code points;
    the [qrcode] / [PIL] library and the file system are the environment,
    reached through explicit external calls that are recorded in the state. *)

From Stdlib Require Import ZArith NArith Ascii String List Bool Lia.
From stdpp Require Import base option list gmap.
Import ListNotations.

Local Open Scope N_scope.

(** ** Python strings *)

(** A [str] is a sequence of code points. *)
Abbreviation char := N (only parsing).
Abbreviation str := (list N) (only parsing).

(** String literals of the source, as code points. *)
Definition py (s : string) : str := map N_of_ascii (list_ascii_of_string s).

(** [s.startswith(prefix)] *)
Fixpoint startswith (s prefix : str) {struct prefix} : bool :=
  match prefix, s with
  | [], _ => true
  | _ :: _, [] => false
  | p :: prefix', c :: s' => (c =? p) && startswith s' prefix'
  end.

(** [s.startswith((p1, p2, ...))]: a tuple of prefixes. *)
Definition startswith_any (s : str) (prefixes : list str) : bool :=
  existsb (startswith s) prefixes.

(** [s.endswith(suffix)] *)
Definition endswith (s suffix : str) : bool :=
  startswith (rev s) (rev suffix).

(** [c in s] for a one-character needle [c]. *)
Definition char_in (c : char) (s : str) : bool := existsb (N.eqb c) s.

(** [c in (a, b, ...)]: membership in a tuple of characters. *)
Definition char_in_tuple (c : char) (t : list char) : bool := existsb (N.eqb c) t.

Definition is_ascii (c : char) : bool := c <? 128.

(** [c.isalnum()] on the ASCII range: [0-9], [A-Z], [a-z]. *)
Definition ascii_isalnum (c : char) : bool :=
  ((48 <=? c) && (c <=? 57)) || ((65 <=? c) && (c <=? 90)) || ((97 <=? c) && (c <=? 122)).

(** [c.lower()] on the ASCII range: [A-Z] is shifted to [a-z]. *)
Definition ascii_lower (c : char) : char :=
  if (65 <=? c) && (c <=? 90) then c + 32 else c.

(** The Unicode character database is not part of the repository: what
    [isalnum] and [lower] do outside ASCII is a parameter.  Lower-casing may
    expand a character and may look at its context (the capital sigma rule),
    so the parameter sees the characters before and after. *)
Record Unicode := {
  isalnum_nonascii : char -> bool;
  lower_nonascii : str -> char -> str -> str
}.

Definition isalnum (U : Unicode) (c : char) : bool :=
  if is_ascii c then ascii_isalnum c else isalnum_nonascii U c.

Fixpoint lower_from (U : Unicode) (before s : str) : str :=
  match s with
  | [] => []
  | c :: rest =>
      (if is_ascii c then [ascii_lower c] else lower_nonascii U before c rest)
        ++ lower_from U (before ++ [c]) rest
  end.

(** [s.lower()] *)
Definition lower (U : Unicode) (s : str) : str := lower_from U [] s.

(** ** Exceptions *)

(** The classes that matter to [except Exception]: [KeyboardInterrupt] and
    [SystemExit] derive from [BaseException] only. *)
Inductive ExnClass :=
| AttributeError | TypeError | ValueError | OSError | DataOverflowError
| OtherException
| KeyboardInterrupt | SystemExit.

Definition derives_from_Exception (c : ExnClass) : bool :=
  match c with
  | KeyboardInterrupt | SystemExit => false
  | _ => true
  end.

(** A raised exception [e]; [exn_msg] is [str(e)]. *)
Record exn := Raise { exn_class : ExnClass; exn_msg : str }.

(** A computation that returns or raises. *)
Abbreviation result A := (exn + A)%type (only parsing).

Definition bindE {A B} (c : result A) (k : A -> result B) : result B :=
  match c with
  | inl e => inl e
  | inr a => k a
  end.

Notation "x <-? c ;; k" := (bindE c (fun x => k))
  (at level 100, c at next level, right associativity).

(** ** Python values *)

(** The values a caller can pass for [url] and [filename].  [PyObj cls t] is
    an instance of a user class [cls] (not a [str] subclass, and one for
    which [isinstance(v, str)] answers [False]) whose truth test
    ([__bool__] / [__len__]) returns or raises as [t] says. *)
#[warnings="-register-all"]
Inductive PyVal :=
| PyNone
| PyBool (b : bool)
| PyInt (z : Z)
| PyStr (s : str)
| PyList (l : list PyVal)
| PyObj (cls : str) (truth : result bool).

(** [bool(v)], the truth test behind [not v] and [if v]. *)
Definition truthy (v : PyVal) : result bool :=
  match v with
  | PyNone => inr false
  | PyBool b => inr b
  | PyInt z => inr (negb (z =? 0)%Z)
  | PyStr s => inr (negb (Nat.eqb (length s) 0))
  | PyList l => inr (negb (Nat.eqb (length l) 0))
  | PyObj _ t => t
  end.

(** [isinstance(v, str)] *)
Definition isinstance_str (v : PyVal) : bool :=
  match v with
  | PyStr _ => true
  | _ => false
  end.

(** [type(v).__name__] *)
Definition type_name (v : PyVal) : str :=
  match v with
  | PyNone => py "NoneType"
  | PyBool _ => py "bool"
  | PyInt _ => py "int"
  | PyStr _ => py "str"
  | PyList _ => py "list"
  | PyObj cls _ => cls
  end.

(** Looking up a [str] method on a value that has none. *)
Definition no_attribute (v : PyVal) (attr : string) : exn :=
  Raise AttributeError
    (py "'" ++ type_name v ++ py "' object has no attribute '" ++ py attr ++ py "'").

(** ** The pure methods *)

(** [QRCodeGenerator.validate_url] (lines 24-41).  The truth test of
    [not url] runs first, then [isinstance]; only a [str] gets past both,
    so the method calls below always have a [str] receiver. *)
Definition validate_url (url : PyVal) : result bool :=
  t <-? truthy url ;;
  if negb t || negb (isinstance_str url) then inr false else
  match url with
  | PyStr s =>
      if startswith_any s [py "http://"; py "https://"] then inr true
      else if char_in 46 s && negb (startswith s (py ".")) && negb (endswith s (py "."))
      then inr true
      else inr false
  | _ => inl (no_attribute url "startswith")
  end.

(** [QRCodeGenerator.format_url] (lines 43-49). *)
Definition format_url (url : PyVal) : result str :=
  match url with
  | PyStr s =>
      if negb (startswith_any s [py "http://"; py "https://"])
      then inr (py "https://" ++ s)
      else inr s
  | _ => inl (no_attribute url "startswith")
  end.

(** [posixpath.join(a, b)] *)
Definition os_path_join (a b : str) : str :=
  if startswith b (py "/") then b
  else if Nat.eqb (length a) 0 || endswith a (py "/") then a ++ b
  else a ++ py "/" ++ b.

(** ** The generator object *)

(** [qrcode.constants.ERROR_CORRECT_*] *)
Inductive ErrorCorrection :=
| ERROR_CORRECT_L | ERROR_CORRECT_M | ERROR_CORRECT_Q | ERROR_CORRECT_H.

(** The instance attributes set by [__init__]. *)
Record QRCodeGenerator := {
  version : Z;
  box_size : Z;
  border : Z;
  error_correction : ErrorCorrection
}.

(** Calls that leave the program, in the order they were made. *)
Inductive Event :=
| EvQRCode (version : Z) (ec : ErrorCorrection) (box_size border : Z)
| EvAddData (data : str)
| EvMake (fit : bool)
| EvMakeImage (fill_color back_color : str)
| EvPathExists (path : str)
| EvMakedirs (path : str)
| EvSave (path : str).

Section Model.

(** The library's symbol objects and images. *)
Variables (QR Image : Type).
Variable U : Unicode.

(** The generator instance, the file system, the external calls made so
    far and the lines printed. *)
Record State := mkState {
  self : QRCodeGenerator;
  dirs : gset (list N);
  files : gmap (list N) Image;
  calls : list Event;
  stdout : list (list N)
}.

(** What the library and the operating system answer.  Each answer may
    depend on everything that happened before; a call returns or raises. *)
Record External := {
  ext_QRCode : State -> Z -> ErrorCorrection -> Z -> Z -> result QR;
  ext_add_data : State -> QR -> str -> result QR;
  ext_make : State -> QR -> bool -> result QR;
  ext_make_image : State -> QR -> str -> str -> result Image;
  ext_makedirs : State -> str -> option exn;
  ext_save : State -> Image -> str -> option exn
}.

Variable X : External.

(** Code that reads and writes the state and returns or raises; the state
    reached is kept when it raises. *)
Definition M (A : Type) : Type := State -> result A * State.

Definition ret {A} (a : A) : M A := fun st => (inr a, st).

Definition bind {A B} (c : M A) (k : A -> M B) : M B := fun st =>
  match c st with
  | (inl e, st') => (inl e, st')
  | (inr a, st') => k a st'
  end.

Definition liftE {A} (c : result A) : M A := fun st => (c, st).

Definition get_self : M QRCodeGenerator := fun st => (inr (self st), st).

Definition set_self (g : QRCodeGenerator) (st : State) : State :=
  mkState g (dirs st) (files st) (calls st) (stdout st).

Definition log (ev : Event) (st : State) : State :=
  mkState (self st) (dirs st) (files st) (calls st ++ [ev]) (stdout st).

Definition add_dir (p : str) (st : State) : State :=
  mkState (self st) ({[ p ]} ∪ dirs st) (files st) (calls st) (stdout st).

Definition write_file (p : str) (img : Image) (st : State) : State :=
  mkState (self st) (dirs st) (<[ p := img ]> (files st)) (calls st) (stdout st).

(** [try: body except Exception as e: handler(e)] *)
Definition try_except_Exception {A} (body : M A) (handler : exn -> M A) : M A :=
  fun st =>
    match body st with
    | (inl e, st') =>
        if derives_from_Exception (exn_class e) then handler e st' else (inl e, st')
    | (inr a, st') => (inr a, st')
    end.

(** An external call: answered from the state it is made in, then logged. *)
Definition call {A} (ev : Event) (answer : State -> result A) : M A :=
  fun st => (answer st, log ev st).

Definition QRCode (v : Z) (ec : ErrorCorrection) (bs bd : Z) : M QR :=
  call (EvQRCode v ec bs bd) (fun st => ext_QRCode X st v ec bs bd).

Definition add_data (qr : QR) (data : str) : M QR :=
  call (EvAddData data) (fun st => ext_add_data X st qr data).

Definition make (qr : QR) (fit : bool) : M QR :=
  call (EvMake fit) (fun st => ext_make X st qr fit).

Definition make_image (qr : QR) (fill_color back_color : str) : M Image :=
  call (EvMakeImage fill_color back_color)
       (fun st => ext_make_image X st qr fill_color back_color).

(** [os.path.exists(p)] *)
Definition os_path_exists (p : str) : M bool :=
  call (EvPathExists p)
       (fun st => inr (bool_decide (p ∈ dirs st) || bool_decide (is_Some (files st !! p)))).

(** [os.makedirs(p)] *)
Definition os_makedirs (p : str) : M unit := fun st =>
  match ext_makedirs X st p with
  | Some e => (inl e, log (EvMakedirs p) st)
  | None => (inr tt, log (EvMakedirs p) (add_dir p st))
  end.

(** [image.save(p)]: creates or replaces the file at [p]. *)
Definition save (img : Image) (p : str) : M unit := fun st =>
  match ext_save X st img p with
  | Some e => (inl e, log (EvSave p) st)
  | None => (inr tt, log (EvSave p) (write_file p img st))
  end.

(** [print(line)] *)
Definition print (line : str) : M unit := fun st =>
  (inr tt, mkState (self st) (dirs st) (files st) (calls st) (stdout st ++ [line])).

Notation "x <- c ;; k" := (bind c (fun x => k))
  (at level 100, c at next level, right associativity).

(** [QRCodeGenerator.__init__] (lines 17-22). *)
Definition __init__ : M unit := fun st =>
  (inr tt,
   set_self {| version := 1; box_size := 10; border := 4;
               error_correction := ERROR_CORRECT_M |} st).

(** Lines 84-85: the name made from the characters of [url]. *)
Definition safe_url (s : str) : str :=
  take 20 (List.filter (fun c => isalnum U c || char_in_tuple c [45; 95]) s).

Definition default_filename (url : PyVal) : result PyVal :=
  match url with
  | PyStr s => inr (PyStr (safe_url s ++ py ".png"))
  | _ => inl (Raise TypeError (py "'" ++ type_name url ++ py "' object is not iterable"))
  end.

(** Lines 88-89: the extension test and [filename += '.png']. *)
Definition ensure_png (filename : PyVal) : result str :=
  match filename with
  | PyStr f =>
      inr (if negb (endswith (lower U f) (py ".png")) then f ++ py ".png" else f)
  | _ => inl (no_attribute filename "lower")
  end.

(** The [try] block of [generate_qr_code] (lines 57-99). *)
Definition generate_qr_code_try (url filename : PyVal) : M (bool * str * option Image) :=
  valid <- liftE (validate_url url) ;;
  if negb valid then ret (false, py "Please enter a valid URL.", None) else
  formatted_url <- liftE (format_url url) ;;
  me <- get_self ;;
  qr <- QRCode (version me) (error_correction me) (box_size me) (border me) ;;
  qr <- add_data qr formatted_url ;;
  qr <- make qr true ;;
  qr_image <- make_image qr (py "black") (py "white") ;;
  named <- liftE (truthy filename) ;;
  filename <- (if negb named then liftE (default_filename url) else ret filename) ;;
  filename <- liftE (ensure_png filename) ;;
  let output_dir := py "qr_codes_output" in
  found <- os_path_exists output_dir ;;
  _ <- (if negb found then os_makedirs output_dir else ret tt) ;;
  let filepath := os_path_join output_dir filename in
  _ <- save qr_image filepath ;;
  ret (true, py "QR code generated successfully! Saved as: " ++ filepath, Some qr_image).

(** [QRCodeGenerator.generate_qr_code] (lines 51-102). *)
Definition generate_qr_code (url filename : PyVal) : M (bool * str * option Image) :=
  try_except_Exception
    (generate_qr_code_try url filename)
    (fun e => ret (false, py "Error generating QR code: " ++ exn_msg e, None)).

(** [QRCodeGenerator.display_qr_info] (lines 104-112), for the arguments
    [main] passes: a [str], a [bool] and a [str]. *)
Definition display_qr_info (url : str) (success : bool) (message : str) : M unit :=
  _ <- print ([10] ++ repeat 61 60) ;;
  _ <- print (py "Input URL: " ++ url) ;;
  _ <- print (py "Status: " ++ (if success then py "SUCCESS" else py "FAILED")) ;;
  _ <- print (py "Message: " ++ message) ;;
  print (repeat 61 60).

(** The operations of a generator, for statements about all of them. *)
Inductive Operation :=
| OpValidate (url : PyVal)
| OpFormat (url : PyVal)
| OpGenerate (url filename : PyVal)
| OpDisplay (url : str) (success : bool) (message : str).

(** The state an operation leaves, whether it returns or raises. *)
Definition run (op : Operation) (st : State) : State :=
  match op with
  | OpValidate url => snd (liftE (validate_url url) st)
  | OpFormat url => snd (liftE (format_url url) st)
  | OpGenerate url filename => snd (generate_qr_code url filename st)
  | OpDisplay url success message => snd (display_qr_info url success message st)
  end.

End Model.

Arguments mkState {Image}.
Arguments self {Image}.
Arguments dirs {Image}.
Arguments files {Image}.
Arguments calls {Image}.
Arguments stdout {Image}.
Arguments generate_qr_code {QR Image}.
Arguments generate_qr_code_try {QR Image}.
Arguments display_qr_info {Image}.
Arguments __init__ {Image}.
Arguments run {QR Image}.
Arguments ret {Image A}.
Arguments bind {Image A B}.
Arguments liftE {Image A}.
Arguments get_self {Image}.
Arguments log {Image}.
Arguments add_dir {Image}.
Arguments write_file {Image}.
Arguments set_self {Image}.
Arguments try_except_Exception {Image A}.
Arguments call {Image A}.
Arguments print {Image}.
Arguments os_makedirs {QR Image}.
Arguments os_path_exists {Image}.
Arguments save {QR Image}.
Arguments ext_QRCode {QR Image}.
Arguments ext_add_data {QR Image}.
Arguments ext_make {QR Image}.
Arguments ext_make_image {QR Image}.
Arguments ext_makedirs {QR Image}.
Arguments ext_save {QR Image}.

(** ** Words of the specification *)

(** The name [generate_qr_code] saves under (lines 83-89), from [url] and
    the [filename] argument. *)
Definition output_filename (U : Unicode) (url filename : PyVal) : result str :=
  named <-? truthy filename ;;
  chosen <-? (if negb named then default_filename U url else inr filename) ;;
  ensure_png U chosen.

(** [<output_dir>/<filename>] *)
Definition output_path (name : str) : str :=
  os_path_join (py "qr_codes_output") name.

Definition success_message (path : str) : str :=
  py "QR code generated successfully! Saved as: " ++ path.

(** A '.' at a position that is neither the first nor the last one. *)
Definition interior_dot (s : str) : Prop :=
  exists i : nat, (0 < i < length s - 1)%nat /\ s !! i = Some 46.

(** Code that leaves the generator's attributes as they were, whether it
    returns or raises. *)
Definition keeps_self {Image A} (c : M Image A) : Prop :=
  forall st : State Image, self (snd (c st)) = self st.

(** An environment in which no external call raises. *)
Definition reliable {QR Image} (X : External QR Image) : Prop :=
  forall st : State Image,
    (forall v ec bs bd, exists q, ext_QRCode X st v ec bs bd = inr q) /\
    (forall q d, exists q', ext_add_data X st q d = inr q') /\
    (forall q fit, exists q', ext_make X st q fit = inr q') /\
    (forall q fc bc, exists img, ext_make_image X st q fc bc = inr img) /\
    (forall p, ext_makedirs X st p = None) /\
    (forall img p, ext_save X st img p = None).

(** ** Sample environments *)

(** A character database with nothing outside ASCII. *)
Definition ascii_only : Unicode :=
  {| isalnum_nonascii := fun _ => false;
     lower_nonascii := fun _ c _ => [c] |}.

(** A library that never fails: the symbol is its payload, the image the
    symbol. *)
Definition quiet : External (list N) (list N) :=
  {| ext_QRCode := fun _ _ _ _ _ => inr [];
     ext_add_data := fun _ q d => inr (q ++ d);
     ext_make := fun _ q _ => inr q;
     ext_make_image := fun _ q _ _ => inr q;
     ext_makedirs := fun _ _ => None;
     ext_save := fun _ _ _ => None |}.

(** The same library, with Ctrl-C arriving while the image is saved. *)
Definition interrupted : External (list N) (list N) :=
  {| ext_QRCode := fun _ _ _ _ _ => inr [];
     ext_add_data := fun _ q d => inr (q ++ d);
     ext_make := fun _ q _ => inr q;
     ext_make_image := fun _ q _ _ => inr q;
     ext_makedirs := fun _ _ => None;
     ext_save := fun _ _ _ => Some (Raise KeyboardInterrupt []) |}.

(** The same library, with a disk that refuses the write. *)
Definition disk_full : External (list N) (list N) :=
  {| ext_QRCode := fun _ _ _ _ _ => inr [];
     ext_add_data := fun _ q d => inr (q ++ d);
     ext_make := fun _ q _ => inr q;
     ext_make_image := fun _ q _ _ => inr q;
     ext_makedirs := fun _ _ => None;
     ext_save := fun _ _ _ => Some (Raise OSError (py "No space left on device")) |}.

(** A freshly constructed generator in an empty directory. *)
Definition fresh : State (list N) :=
  snd (__init__ (mkState {| version := 0; box_size := 0; border := 0;
                            error_correction := ERROR_CORRECT_L |} ∅ ∅ [] [])).

(** ** The interaction loop *)

(** [c.isspace()] on the ASCII range: tab to carriage return, the four
    separators 28-31 and the space. *)
Definition ascii_isspace (c : char) : bool :=
  ((9 <=? c) && (c <=? 13)) || ((28 <=? c) && (c <=? 32)).

(** [c.isspace()]; outside ASCII the answer is the parameter [ws]. *)
Definition isspace (ws : char -> bool) (c : char) : bool :=
  if is_ascii c then ascii_isspace c else ws c.

(** [s.lstrip()] *)
Fixpoint lstrip (ws : char -> bool) (s : str) : str :=
  match s with
  | [] => []
  | c :: rest => if isspace ws c then lstrip ws rest else s
  end.

(** [s.strip()] *)
Definition strip (ws : char -> bool) (s : str) : str :=
  rev (lstrip ws (rev (lstrip ws s))).

(** [a == b] on strings. *)
Fixpoint str_eqb (a b : str) : bool :=
  match a, b with
  | [], [] => true
  | x :: a', y :: b' => (x =? y) && str_eqb a' b'
  | _, _ => false
  end.

(** What the user does at a prompt: type a line, or press Ctrl-C.  When
    nothing is left, standard input is at its end. *)
Inductive Key :=
| Line (text : str)
| CtrlC.

(** How one pass through the [while True] body ends. *)
Inductive Flow := Continue | Break.

(** How a bounded run of [main] ends when it does not raise. *)
Inductive Outcome := Returned | StillRunning.

Section Loop.

Variables (QR Image : Type).
Variable U : Unicode.
Variable isspace_nonascii : char -> bool.
Variable X : External QR Image.

(** [image.show()]: the viewer, which may fail. *)
Variable ext_show : State Image -> Image -> option exn.

(** The generator's state, what is still to come on standard input, and
    the images handed to the viewer. *)
Record Console := mkConsole {
  world : State Image;
  stdin : list Key;
  shown : list Image
}.

Definition C (A : Type) : Type := Console -> result A * Console.

Definition retC {A} (a : A) : C A := fun k => (inr a, k).

Definition bindC {A B} (c : C A) (f : A -> C B) : C B := fun k =>
  match c k with
  | (inl e, k') => (inl e, k')
  | (inr a, k') => f a k'
  end.

Definition raiseC {A} (e : exn) : C A := fun k => (inl e, k).

(** Code of the generator, run on the console's state. *)
Definition liftM {A} (c : M Image A) : C A := fun k =>
  (fst (c (world k)), mkConsole (snd (c (world k))) (stdin k) (shown k)).

Definition say (line : str) : C unit := liftM (print line).

(** [input(prompt)]: writes the prompt, then reads a line; Ctrl-C raises
    [KeyboardInterrupt], the end of input raises [EOFError] (a subclass of
    [Exception]). *)
Definition input (prompt : str) : C str :=
  bindC (say prompt) (fun _ k =>
    match stdin k with
    | [] => (inl (Raise OtherException (py "EOF when reading a line")), k)
    | Line text :: rest => (inr text, mkConsole (world k) rest (shown k))
    | CtrlC :: rest => (inl (Raise KeyboardInterrupt []), mkConsole (world k) rest (shown k))
    end).

Definition show (img : Image) : C unit := fun k =>
  match ext_show (world k) img with
  | Some e => (inl e, k)
  | None => (inr tt, mkConsole (world k) (stdin k) (shown k ++ [img]))
  end.

(** [qr_image.show()] on the third component of the result. *)
Definition show_result (qr_image : option Image) : C unit :=
  match qr_image with
  | Some img => show img
  | None => raiseC (no_attribute PyNone "show")
  end.

(** [sys.exit(0)] *)
Definition sys_exit_0 {A} : C A := raiseC (Raise SystemExit (py "0")).

Notation "x <~ c ;; f" := (bindC c (fun x => f))
  (at level 100, c at next level, right associativity).

(** The inner [try] of [main] (lines 157-162). *)
Definition display_image (qr_image : option Image) : C unit := fun k =>
  match (_ <~ show_result qr_image ;;
         say (py "QR code image displayed in your default image viewer.")) k with
  | (inl e, k') =>
      if derives_from_Exception (exn_class e)
      then (_ <~ say (py "Note: Could not display image automatically: " ++ exn_msg e) ;;
            say (py "Please check the output folder for your QR code file.")) k'
      else (inl e, k')
  | (inr a, k') => (inr a, k')
  end.

(** The outer [try] block of the loop body (lines 128-165). *)
Definition menu_try : C Flow :=
  _ <~ say ([10] ++ py "Options:") ;;
  _ <~ say (py "1. Generate QR code from URL") ;;
  _ <~ say (py "2. Exit application") ;;
  line <~ input ([10] ++ py "Enter your choice (1 or 2): ") ;;
  let choice := strip isspace_nonascii line in
  if str_eqb choice (py "2") then
    _ <~ say (py "Goodbye!") ;;
    retC Break
  else if str_eqb choice (py "1") then
    line <~ input ([10] ++ py "Enter the URL to generate QR code: ") ;;
    let url := strip isspace_nonascii line in
    if Nat.eqb (length url) 0 then
      _ <~ say (py "Error: URL cannot be empty.") ;;
      retC Continue
    else
      _ <~ say ([10] ++ py "Generating QR code...") ;;
      r <~ liftM (generate_qr_code U X (PyStr url) PyNone) ;;
      let '(success, message, qr_image) := r in
      _ <~ liftM (display_qr_info url success message) ;;
      _ <~ (if success then display_image qr_image else retC tt) ;;
      retC Continue
  else
    _ <~ say (py "Invalid choice. Please enter 1 or 2.") ;;
    retC Continue.

(** One pass through the body of [while True], with its two handlers
    (lines 127-174). *)
Definition main_iteration : C Flow := fun k =>
  match menu_try k with
  | (inl e, k') =>
      match exn_class e with
      | KeyboardInterrupt =>
          (_ <~ say ([10; 10] ++ py "Application interrupted by user.") ;;
           _ <~ say (py "Thank you for using the QR Code Generator!") ;;
           sys_exit_0) k'
      | cls =>
          if derives_from_Exception cls
          then (_ <~ say ([10] ++ py "Unexpected error: " ++ exn_msg e) ;;
                _ <~ say (py "Please try again.") ;;
                retC Continue) k'
          else (inl e, k')
      end
  | (inr flow, k') => (inr flow, k')
  end.

(** The [while True] loop, for at most [n] passes. *)
Fixpoint main_loop (n : nat) : C Outcome :=
  match n with
  | O => retC StillRunning
  | S n' =>
      flow <~ main_iteration ;;
      match flow with
      | Break => retC Returned
      | Continue => main_loop n'
      end
  end.

(** [main] (lines 115-174), for at most [n] passes through the loop. *)
Definition main (n : nat) : C Outcome :=
  _ <~ say (py "Welcome to QR Code Generator!") ;;
  _ <~ say (py "This application generates QR codes from URL inputs.") ;;
  _ <~ say (repeat 45 50) ;;
  _ <~ liftM __init__ ;;
  main_loop n.

End Loop.

Arguments mkConsole {Image}.
Arguments world {Image}.
Arguments stdin {Image}.
Arguments shown {Image}.
Arguments retC {Image A}.
Arguments bindC {Image A B}.
Arguments liftM {Image A}.
Arguments say {Image}.
Arguments input {Image}.
Arguments show {Image}.
Arguments show_result {Image}.
Arguments display_image {Image}.
Arguments menu_try {QR Image}.
Arguments main_iteration {QR Image}.
Arguments main_loop {QR Image}.
Arguments main {QR Image}.

(** [None], a boolean, an integer or a list: the values of built-in types
    that are not strings.  Their truth test cannot raise and
    [isinstance(v, str)] is [False] for them. *)
Definition builtin_non_str (v : PyVal) : bool :=
  match v with
  | PyNone | PyBool _ | PyInt _ | PyList _ => true
  | PyStr _ | PyObj _ _ => false
  end.

(** [os.path.exists(p)] in a state. *)
Definition path_exists {Image} (p : str) (st : State Image) : bool :=
  bool_decide (p ∈ dirs st) || bool_decide (is_Some (files st !! p)).

(** A state after more lines were printed. *)
Definition printed {Image} (lines : list (list N)) (st : State Image) : State Image :=
  mkState (self st) (dirs st) (files st) (calls st) (stdout st ++ lines).

(** What [main] writes before it reads the choice. *)
Definition menu_lines : list (list N) :=
  [[10] ++ py "Options:"; py "1. Generate QR code from URL";
   py "2. Exit application"; [10] ++ py "Enter your choice (1 or 2): "].

(** The characters the default file name keeps. *)
Definition kept (U : Unicode) (c : char) : bool :=
  isalnum U c || (c =? 45) || (c =? 95).

(** A character database in which no character outside ASCII is white
    space. *)
Definition ascii_space : N -> bool := fun _ => false.

(** A fresh session at the keyboard: what the user is going to type. *)
Definition desk (keys : list Key) : Console (list N) := mkConsole fresh keys [].

(** A viewer that always opens. *)
Definition viewer_ok : State (list N) -> list N -> option exn := fun _ _ => None.

(** A machine without a viewer. *)
Definition viewer_missing : State (list N) -> list N -> option exn :=
  fun _ _ => Some (Raise OSError (py "no display")).

(** A library whose [make] rejects every payload as too long. *)
Definition overflowing : External (list N) (list N) :=
  {| ext_QRCode := fun _ _ _ _ _ => inr [];
     ext_add_data := fun _ q d => inr (q ++ d);
     ext_make := fun _ _ _ => inl (Raise DataOverflowError (py "too much data"));
     ext_make_image := fun _ q _ _ => inr q;
     ext_makedirs := fun _ _ => None;
     ext_save := fun _ _ _ => None |}.

(** * Properties *)

(** ** Strings *)

Lemma startswith_prefix (s p : str) :
  startswith s p = true <-> p `prefix_of` s.
Proof.
  revert s; induction p as [|c p IH]; intros s; simpl.
  - split; [intros _; apply prefix_nil | reflexivity].
  - destruct s as [|d s].
    + split; [discriminate | intros [k Hk]; discriminate].
    + rewrite andb_true_iff, N.eqb_eq, IH. split.
      * intros [-> Hp]. by apply prefix_cons.
      * intros [k Hk]. injection Hk as -> ->. split; [reflexivity | by exists k].
Qed.

Lemma endswith_suffix (s p : str) :
  endswith s p = true <-> p `suffix_of` s.
Proof.
  unfold endswith. rewrite startswith_prefix. split.
  - intros [k Hk]. exists (rev k).
    rewrite <- (rev_involutive s), Hk, rev_app_distr, rev_involutive. reflexivity.
  - intros [k ->]. exists (rev k). apply rev_app_distr.
Qed.

Lemma char_in_In (c : N) (s : str) : char_in c s = true <-> In c s.
Proof.
  unfold char_in. rewrite existsb_exists. split.
  - intros [x [Hx He]]. apply N.eqb_eq in He. by subst.
  - intros H. exists c. split; [done | apply N.eqb_refl].
Qed.

Lemma startswith_false (s p : str) :
  startswith s p = false <-> ~ p `prefix_of` s.
Proof. rewrite <- startswith_prefix. destruct (startswith s p); split; congruence. Qed.

Lemma endswith_false (s p : str) :
  endswith s p = false <-> ~ p `suffix_of` s.
Proof. rewrite <- endswith_suffix. destruct (endswith s p); split; congruence. Qed.

(** Lower-casing a string that ends in ASCII characters: the tail is
    lower-cased character by character, whatever stands before it. *)
Lemma lower_from_ascii (U : Unicode) (t before : str) :
  forallb is_ascii t = true ->
  lower_from U before t = map ascii_lower t.
Proof.
  revert before; induction t as [|c t IH]; intros before H; simpl in *.
  - reflexivity.
  - apply andb_true_iff in H as [Hc Ht]. rewrite Hc. simpl. f_equal. by apply IH.
Qed.

Lemma lower_from_app_ascii (U : Unicode) (s t before : str) :
  forallb is_ascii t = true ->
  exists front, lower_from U before (s ++ t) = front ++ map ascii_lower t.
Proof.
  intros Ht. revert before; induction s as [|c s IH]; intros before; simpl.
  - exists []. by apply lower_from_ascii.
  - destruct (IH (before ++ [c])) as [front Hf]. rewrite Hf.
    eexists. rewrite app_assoc. reflexivity.
Qed.

Lemma lower_ends_png (U : Unicode) (s t : str) :
  forallb is_ascii t = true ->
  map ascii_lower t = py ".png" ->
  endswith (lower U (s ++ t)) (py ".png") = true.
Proof.
  intros Ha Hl. unfold lower.
  destruct (lower_from_app_ascii U s t [] Ha) as [front Hf].
  rewrite Hf, Hl. apply endswith_suffix. by exists front.
Qed.

(** ** [validate_url] *)

(** On a [str] the validator never raises, and its answer is this test. *)
Lemma validate_url_str (s : str) :
  validate_url (PyStr s) =
  inr (negb (Nat.eqb (length s) 0)
       && (startswith_any s [py "http://"; py "https://"]
           || (char_in 46 s && negb (startswith s (py ".")) && negb (endswith s (py "."))))).
Proof.
  unfold validate_url, truthy, bindE, isinstance_str.
  destruct s as [|c s]; [reflexivity|].
  cbn [length Nat.eqb negb orb andb].
  destruct (startswith_any _ _); [reflexivity|].
  destruct (char_in _ _ && _ && _); reflexivity.
Qed.

Lemma startswith_any_http (s : str) :
  startswith_any s [py "http://"; py "https://"] = true <->
  py "http://" `prefix_of` s \/ py "https://" `prefix_of` s.
Proof.
  unfold startswith_any. cbn [existsb].
  rewrite orb_false_r, orb_true_iff, !startswith_prefix. reflexivity.
Qed.

(** A '.' in a string that neither starts nor ends with one is interior. *)
Lemma dot_inside (s : str) :
  In 46 s -> ~ py "." `prefix_of` s -> ~ py "." `suffix_of` s -> interior_dot s.
Proof.
  intros Hin Hp Hs.
  apply list_elem_of_In, list_elem_of_lookup in Hin as [i Hi].
  exists i. split; [|exact Hi].
  pose proof (lookup_lt_Some _ _ _ Hi) as Hlt.
  split.
  - destruct i; [|lia]. exfalso. apply Hp.
    destruct s as [|c s]; [discriminate|]. injection Hi as ->. by exists s.
  - destruct (decide (i = (length s - 1)%nat)) as [->|]; [|lia].
    exfalso. apply Hs. exists (take (length s - 1) s).
    rewrite <- (take_drop_middle _ _ _ Hi) at 1.
    rewrite (drop_ge s) by lia. reflexivity.
Qed.

(** C1 (amended).  On a string [s], [validate_url] never raises; it returns
    [False] when [s] is empty and [True] when [s] begins with "http://" or
    "https://"; for any other [s] it returns [True] exactly when [s] contains
    a '.' and neither starts nor ends with '.', in which case that '.' is
    neither the first nor the last character; every other string is
    rejected, "ftp://x" among them. *)
Theorem validate_url_spec (s : str) :
  (s = [] -> validate_url (PyStr s) = inr false) /\
  (py "http://" `prefix_of` s \/ py "https://" `prefix_of` s ->
   validate_url (PyStr s) = inr true) /\
  (s <> [] -> ~ py "http://" `prefix_of` s -> ~ py "https://" `prefix_of` s ->
   (validate_url (PyStr s) = inr true <->
    In 46 s /\ ~ py "." `prefix_of` s /\ ~ py "." `suffix_of` s) /\
   (validate_url (PyStr s) = inr true -> interior_dot s)) /\
  (validate_url (PyStr s) = inr true \/ validate_url (PyStr s) = inr false) /\
  validate_url (PyStr (py "ftp://x")) = inr false.
Proof.
  rewrite validate_url_str.
  split; [|split; [|split; [|split]]].
  - intros ->. reflexivity.
  - intros H. apply startswith_any_http in H as Hs. rewrite Hs.
    destruct s as [|c s]; [|reflexivity].
    destruct H as [[k Hk]|[k Hk]]; discriminate.
  - intros Hne Hhttp Hhttps.
    assert (startswith_any s [py "http://"; py "https://"] = false) as ->.
    { destruct (startswith_any s _) eqn:E; [|reflexivity].
      apply startswith_any_http in E. tauto. }
    destruct s as [|c s]; [done|]. cbn [length Nat.eqb negb andb orb].
    assert (inr (B:=bool) (A:=exn)
              (char_in 46 (c :: s) && negb (startswith (c :: s) (py "."))
               && negb (endswith (c :: s) (py "."))) = inr true <->
            In 46 (c :: s) /\ ~ py "." `prefix_of` (c :: s) /\ ~ py "." `suffix_of` (c :: s))
      as Hiff.
    { rewrite <- char_in_In, <- startswith_false, <- endswith_false.
      destruct (char_in _ _), (startswith _ _), (endswith _ _); cbn;
        split; try tauto; try discriminate; intros (? & ? & ?); discriminate. }
    split; [exact Hiff|].
    intros H. apply Hiff in H as (Hin & Hp & Hs). by apply dot_inside.
  - destruct (negb _ && _); [by left | by right].
  - reflexivity.
Qed.

(** The claim as first stated fails on "a.b.": the '.' at index 1 is neither
    the first nor the last character, yet the string ends with '.' and is
    rejected. *)
Lemma validate_url_interior_dot_counterexample :
  py "a.b." <> [] /\
  ~ py "http://" `prefix_of` py "a.b." /\
  ~ py "https://" `prefix_of` py "a.b." /\
  interior_dot (py "a.b.") /\
  validate_url (PyStr (py "a.b.")) = inr false.
Proof.
  split; [|split; [|split; [|split]]].
  - discriminate.
  - apply startswith_false. reflexivity.
  - apply startswith_false. reflexivity.
  - exists 1%nat. split; [simpl; lia | reflexivity].
  - reflexivity.
Qed.

Lemma validate_url_spec_witness :
  (validate_url (PyStr (py "example.com")) = inr true <->
   In 46 (py "example.com") /\
   ~ py "." `prefix_of` py "example.com" /\ ~ py "." `suffix_of` py "example.com") /\
  (validate_url (PyStr (py "example.com")) = inr true -> interior_dot (py "example.com")).
Proof.
  destruct (validate_url_spec (py "example.com")) as (_ & _ & H & _).
  apply H.
  - discriminate.
  - apply startswith_false. reflexivity.
  - apply startswith_false. reflexivity.
Defined.

(** C9 (amended).  For [None], a boolean, an integer or a list,
    [validate_url] returns [False] without raising.  It is not total over
    all values: whenever the truth test of [x] raises, that exception
    leaves [validate_url], because [not url] is evaluated before
    [isinstance]. *)
Theorem validate_url_non_str (x : PyVal) :
  (builtin_non_str x = true -> validate_url x = inr false) /\
  (forall e, truthy x = inl e -> validate_url x = inl e).
Proof.
  unfold validate_url. split.
  - destruct x as [|b|z|s|l|cls t]; try discriminate; intros _; cbn.
    + reflexivity.
    + by destruct b.
    + by destruct (z =? 0)%Z.
    + by destruct l.
  - intros e ->. reflexivity.
Qed.

Lemma validate_url_non_str_witness :
  validate_url PyNone = inr false /\ validate_url (PyInt 7) = inr false /\
  validate_url (PyInt 0) = inr false /\ validate_url (PyList [PyNone]) = inr false.
Proof.
  split; [|split; [|split]].
  - apply (validate_url_non_str PyNone). reflexivity.
  - apply (validate_url_non_str (PyInt 7)). reflexivity.
  - apply (validate_url_non_str (PyInt 0)). reflexivity.
  - apply (validate_url_non_str (PyList [PyNone])). reflexivity.
Defined.

(** The claim as first stated fails on an object whose truth test raises,
    such as a numpy array of several elements: it is not a [str], and the
    call raises instead of returning [False]. *)
Lemma validate_url_raises_counterexample :
  isinstance_str
    (PyObj (py "ndarray")
       (inl (Raise ValueError (py "The truth value of an array is ambiguous")))) = false /\
  validate_url
    (PyObj (py "ndarray")
       (inl (Raise ValueError (py "The truth value of an array is ambiguous"))))
  = inl (Raise ValueError (py "The truth value of an array is ambiguous")).
Proof. split; reflexivity. Qed.

(** ** [format_url] *)

(** On a [str], [format_url] never raises. *)
Lemma format_url_str (s : str) : exists n, format_url (PyStr s) = inr n.
Proof.
  unfold format_url. destruct (negb (startswith_any s _)); eexists; reflexivity.
Qed.

(** C5.  [format_url] returns a string that starts with "http://" or
    "https://" unchanged and puts "https://" before any other string;
    formatting twice gives the same as formatting once. *)
Theorem format_url_spec (s : str) :
  (py "http://" `prefix_of` s \/ py "https://" `prefix_of` s ->
   format_url (PyStr s) = inr s) /\
  (~ py "http://" `prefix_of` s -> ~ py "https://" `prefix_of` s ->
   format_url (PyStr s) = inr (py "https://" ++ s)) /\
  (exists n, format_url (PyStr s) = inr n /\ format_url (PyStr n) = inr n).
Proof.
  unfold format_url. split; [|split].
  - intros H. apply startswith_any_http in H as ->. reflexivity.
  - intros H1 H2.
    destruct (startswith_any s _) eqn:E; [|reflexivity].
    apply startswith_any_http in E. tauto.
  - destruct (startswith_any s _) eqn:E; cbn [negb].
    + exists s. rewrite E. done.
    + exists (py "https://" ++ s). split; [reflexivity|].
      assert (startswith_any (py "https://" ++ s) [py "http://"; py "https://"] = true) as ->.
      { apply startswith_any_http. right. by exists s. }
      reflexivity.
Qed.

Lemma format_url_spec_witness :
  format_url (PyStr (py "example.com")) = inr (py "https://example.com") /\
  format_url (PyStr (py "http://example.com")) = inr (py "http://example.com").
Proof.
  split.
  - apply (format_url_spec (py "example.com")); apply startswith_false; reflexivity.
  - apply (format_url_spec (py "http://example.com")). left. apply startswith_prefix. reflexivity.
Defined.

(** ** Running code in [M] *)

Section Runs.

Context {QR Image : Type} (U : Unicode) (X : External QR Image).

Abbreviation St := (State Image).
Abbreviation Code A := (M Image A).

Lemma bind_returns {A B} (c : Code A) (k : A -> Code B) (st st' : St) (b : B) :
  bind c k st = (inr b, st') ->
  exists a st1, c st = (inr a, st1) /\ k a st1 = (inr b, st').
Proof.
  unfold bind. destruct (c st) as [[e|a] st1]; [discriminate|]. eauto.
Qed.

Lemma liftE_returns {A} (c : result A) (st st' : St) (a : A) :
  liftE c st = (inr a, st') -> c = inr a /\ st' = st.
Proof. unfold liftE. intros [= -> ->]. done. Qed.

Lemma call_returns {A} (ev : Event) (f : St -> result A) (st st' : St) (a : A) :
  call ev f st = (inr a, st') -> f st = inr a /\ st' = log ev st.
Proof. unfold call. intros [= -> ->]. done. Qed.

Lemma os_makedirs_returns (p : str) (st st' : St) (u : unit) :
  os_makedirs X p st = (inr u, st') ->
  st' = log (EvMakedirs p) (add_dir p st).
Proof. unfold os_makedirs. destruct (ext_makedirs _ _ _); intros [= <-]; done. Qed.

Lemma save_returns (img : Image) (p : str) (st st' : St) (u : unit) :
  save X img p st = (inr u, st') ->
  st' = log (EvSave p) (write_file p img st).
Proof. unfold save. destruct (ext_save _ _ _ _); intros [= <-]; done. Qed.

Lemma keeps_self_bind {A B} (c : Code A) (k : A -> Code B) :
  keeps_self c -> (forall a, keeps_self (k a)) -> keeps_self (bind c k).
Proof.
  intros Hc Hk st. unfold bind. specialize (Hc st).
  destruct (c st) as [[e|a] st1]; simpl in *; [done|].
  rewrite (Hk a st1). done.
Qed.

Lemma keeps_self_try {A} (body : Code A) (handler : exn -> Code A) :
  keeps_self body -> (forall e, keeps_self (handler e)) ->
  keeps_self (try_except_Exception body handler).
Proof.
  intros Hb Hh st. unfold try_except_Exception. specialize (Hb st).
  destruct (body st) as [[e|a] st1]; simpl in *; [|done].
  destruct (derives_from_Exception _); simpl; [|done].
  rewrite (Hh e st1). done.
Qed.

Lemma keeps_self_ret {A} (a : A) : keeps_self (ret a : Code A).
Proof. intros st. reflexivity. Qed.

Lemma keeps_self_liftE {A} (c : result A) : keeps_self (liftE c : Code A).
Proof. intros st. reflexivity. Qed.

Lemma keeps_self_call {A} (ev : Event) (f : St -> result A) : keeps_self (call ev f).
Proof. intros st. reflexivity. Qed.

Lemma keeps_self_get : keeps_self (get_self : Code QRCodeGenerator).
Proof. intros st. reflexivity. Qed.

Lemma keeps_self_makedirs (p : str) : keeps_self (os_makedirs X p).
Proof. intros st. unfold os_makedirs. destruct (ext_makedirs _ _ _); reflexivity. Qed.

Lemma keeps_self_save (img : Image) (p : str) : keeps_self (save X img p).
Proof. intros st. unfold save. destruct (ext_save _ _ _ _); reflexivity. Qed.

Lemma keeps_self_print (line : str) : keeps_self (print line : Code unit).
Proof. intros st. reflexivity. Qed.

Lemma keeps_self_generate (url filename : PyVal) :
  keeps_self (generate_qr_code U X url filename).
Proof.
  unfold generate_qr_code, generate_qr_code_try.
  apply keeps_self_try; [|intros e; apply keeps_self_ret].
  apply keeps_self_bind; [apply keeps_self_liftE|]. intros valid.
  destruct (negb valid); [apply keeps_self_ret|].
  repeat first
    [ apply keeps_self_ret | apply keeps_self_liftE | apply keeps_self_get
    | apply keeps_self_call | apply keeps_self_makedirs | apply keeps_self_save
    | apply keeps_self_bind; [|intros ?]
    | match goal with |- keeps_self (if ?b then _ else _) => destruct b end ].
Qed.

Lemma keeps_self_display (url : str) (success : bool) (message : str) :
  keeps_self (display_qr_info url success message : Code unit).
Proof.
  unfold display_qr_info.
  repeat first [ apply keeps_self_print | apply keeps_self_bind; [|intros ?] ].
Qed.

Lemma ret_returns {A} (a b : A) (st st' : St) :
  ret a st = (inr b, st') -> b = a /\ st' = st.
Proof. unfold ret. intros [= -> ->]. done. Qed.

(** A successful run of the [try] block: what it returned and wrote. *)
Lemma generate_try_success (url filename : PyVal) (st st' : St)
      (m : str) (oi : option Image) :
  generate_qr_code_try U X url filename st = (inr (true, m, oi), st') ->
  exists name img,
    validate_url url = inr true /\
    output_filename U url filename = inr name /\
    m = success_message (output_path name) /\
    oi = Some img /\
    files st' = <[output_path name := img]> (files st) /\
    dom (files st') = {[output_path name]} ∪ dom (files st).
Proof.
  unfold generate_qr_code_try. intros H.
  apply bind_returns in H as (valid & s1 & Hv & H). apply liftE_returns in Hv as [Hv ->].
  destruct valid; cbn [negb] in H; [|apply ret_returns in H as [[=] _]].
  apply bind_returns in H as (furl & s1 & Hf & H). apply liftE_returns in Hf as [Hf ->].
  apply bind_returns in H as (me & s1 & Hme & H). injection Hme as <- <-.
  apply bind_returns in H as (q0 & s1 & Hq0 & H). apply call_returns in Hq0 as [Hq0 ->].
  apply bind_returns in H as (q1 & s2 & Hq1 & H). apply call_returns in Hq1 as [Hq1 ->].
  apply bind_returns in H as (q2 & s3 & Hq2 & H). apply call_returns in Hq2 as [Hq2 ->].
  apply bind_returns in H as (img & s4 & Hi & H). apply call_returns in Hi as [Hi ->].
  apply bind_returns in H as (named & s5 & Hn & H). apply liftE_returns in Hn as [Hn ->].
  apply bind_returns in H as (chosen & s5 & Hc & H).
  apply bind_returns in H as (name & s6 & He & H). apply liftE_returns in He as [He ->].
  apply bind_returns in H as (found & s7 & Hx & H). apply call_returns in Hx as [Hx ->].
  apply bind_returns in H as (u1 & s8 & Hm & H).
  apply bind_returns in H as (u2 & s9 & Hs & H). apply save_returns in Hs as ->.
  apply ret_returns in H as [[= -> ->] ->].
  assert (output_filename U url filename = inr name /\ files s8 = files st) as [Hname Hfiles].
  { unfold output_filename. rewrite Hn. cbn [bindE].
    destruct (negb named).
    - apply liftE_returns in Hc as [-> ->]. cbn [bindE]. split; [exact He|].
      destruct (negb found).
      + apply os_makedirs_returns in Hm as ->. reflexivity.
      + apply ret_returns in Hm as [_ ->]. reflexivity.
    - apply ret_returns in Hc as [-> ->]. cbn [bindE]. split; [exact He|].
      destruct (negb found).
      + apply os_makedirs_returns in Hm as ->. reflexivity.
      + apply ret_returns in Hm as [_ ->]. reflexivity. }
  exists name, img. repeat (split; [done|]).
  cbn [files log write_file]. rewrite Hfiles.
  split; [reflexivity|]. apply dom_insert_L.
Qed.

(** [except Exception] passes a result of the [try] block through. *)
Lemma generate_success (url filename : PyVal) (st st' : St)
      (m : str) (oi : option Image) :
  generate_qr_code U X url filename st = (inr (true, m, oi), st') ->
  generate_qr_code_try U X url filename st = (inr (true, m, oi), st').
Proof.
  unfold generate_qr_code, try_except_Exception.
  destruct (generate_qr_code_try U X url filename st) as [[e|r] s1]; [|done].
  destruct (derives_from_Exception _); [|discriminate].
  unfold ret. intros [=].
Qed.

Lemma bind_runs {A B} (c : Code A) (k : A -> Code B) (st st1 : St) (a : A) :
  c st = (inr a, st1) -> bind c k st = k a st1.
Proof. unfold bind. intros ->. reflexivity. Qed.

(** In a reliable environment a valid URL is encoded and saved. *)
Lemma generate_runs (u : str) (filename : PyVal) (name : str) (st : St) :
  reliable X ->
  validate_url (PyStr u) = inr true ->
  output_filename U (PyStr u) filename = inr name ->
  exists img st',
    generate_qr_code U X (PyStr u) filename st
    = (inr (true, success_message (output_path name), Some img), st') /\
    files st' !! output_path name = Some img.
Proof.
  intros Hrel Hv Hname.
  assert (exists img st',
            generate_qr_code_try U X (PyStr u) filename st
            = (inr (true, success_message (output_path name), Some img), st') /\
            files st' !! output_path name = Some img) as (img & st' & Hrun & Hfile).
  2: { exists img, st'. split; [|exact Hfile].
       unfold generate_qr_code, try_except_Exception. rewrite Hrun. reflexivity. }
  unfold generate_qr_code_try.
  erewrite bind_runs by (unfold liftE; rewrite Hv; reflexivity). cbn [negb].
  destruct (format_url_str u) as [furl Hfurl].
  erewrite bind_runs by (unfold liftE; rewrite Hfurl; reflexivity).
  erewrite bind_runs by reflexivity.
  set (s0 := st).
  destruct (Hrel s0) as (H & _).
  destruct (H (version (self s0)) (error_correction (self s0))
              (box_size (self s0)) (border (self s0))) as [q0 Hq0]. clear H.
  erewrite bind_runs by (unfold QRCode, call; rewrite Hq0; reflexivity).
  set (s1 := log _ s0).
  destruct (Hrel s1) as (_ & H & _). destruct (H q0 furl) as [q1 Hq1]. clear H.
  erewrite bind_runs by (unfold add_data, call; rewrite Hq1; reflexivity).
  set (s2 := log _ s1).
  destruct (Hrel s2) as (_ & _ & H & _). destruct (H q1 true) as [q2 Hq2]. clear H.
  erewrite bind_runs by (unfold make, call; rewrite Hq2; reflexivity).
  set (s3 := log _ s2).
  destruct (Hrel s3) as (_ & _ & _ & H & _).
  destruct (H q2 (py "black") (py "white")) as [img Himg]. clear H.
  erewrite bind_runs by (unfold make_image, call; rewrite Himg; reflexivity).
  set (s4 := log _ s3).
  unfold output_filename in Hname.
  destruct (truthy filename) as [e|named] eqn:Hn; [discriminate|]. cbn [bindE] in Hname.
  erewrite bind_runs by reflexivity.
  assert (exists chosen,
            (if negb named then liftE (default_filename U (PyStr u)) else ret filename) s4
            = (inr chosen, s4) /\ ensure_png U chosen = inr name) as (chosen & Hc & He).
  { destruct (negb named).
    - destruct (default_filename U (PyStr u)) as [e|chosen]; [discriminate|].
      exists chosen. split; [reflexivity | exact Hname].
    - exists filename. split; [reflexivity | exact Hname]. }
  erewrite bind_runs by exact Hc.
  erewrite bind_runs by (unfold liftE; rewrite He; reflexivity).
  erewrite bind_runs by reflexivity.
  set (s5 := log _ s4).
  set (found := bool_decide _ || _).
  assert (exists s6, (if negb found
                      then os_makedirs X (py "qr_codes_output")
                      else ret ()) s5 = (inr (), s6) /\
                     files s6 = files st) as (s6 & Hm & Hfiles).
  { destruct (negb found).
    - unfold os_makedirs. destruct (Hrel s5) as (_ & _ & _ & _ & H & _).
      rewrite H. eexists. split; reflexivity.
    - eexists. split; reflexivity. }
  erewrite bind_runs by exact Hm.
  destruct (Hrel s6) as (_ & _ & _ & _ & _ & H).
  erewrite bind_runs by (unfold save; rewrite H; reflexivity).
  exists img. eexists. split; [reflexivity|].
  cbn [files log write_file]. apply lookup_insert_eq.
Qed.

End Runs.

(** ** File names *)

Section Names.

Context (U : Unicode).

(** '/' is not kept by the sanitiser, so the default name is relative. *)
Lemma default_name_relative (u : str) :
  startswith (safe_url U u ++ py ".png") (py "/") = false.
Proof.
  unfold safe_url.
  destruct (List.filter _ u) as [|c l] eqn:E; [reflexivity|].
  assert (In c (List.filter (fun c => isalnum U c || char_in_tuple c [45; 95]) u)) as Hc
    by (rewrite E; left; reflexivity).
  apply filter_In in Hc as [_ Hc].
  change (take 20 (c :: l)) with (c :: take 19 l).
  change (startswith ((c :: take 19 l) ++ py ".png") (py "/")) with ((c =? 47) && true).
  destruct (N.eqb_spec c 47) as [->|]; [|reflexivity].
  discriminate Hc.
Qed.

Lemma output_path_relative (name : str) :
  startswith name (py "/") = false ->
  output_path name = py "qr_codes_output/" ++ name.
Proof. unfold output_path, os_path_join. intros ->. reflexivity. Qed.

(** With no [filename], the name saved under is the sanitised URL. *)
Lemma output_filename_default (u : str) :
  output_filename U (PyStr u) PyNone = inr (safe_url U u ++ py ".png").
Proof.
  unfold output_filename, ensure_png. cbn [truthy bindE negb default_filename].
  rewrite lower_ends_png by reflexivity. reflexivity.
Qed.

(** With a non-empty [filename], it is that name, with the extension added
    when the lower-cased name lacks it. *)
Lemma output_filename_explicit (url : PyVal) (f : str) :
  f <> [] ->
  output_filename U url (PyStr f)
  = inr (if endswith (lower U f) (py ".png") then f else f ++ py ".png").
Proof.
  intros Hf. unfold output_filename, ensure_png.
  destruct f as [|c f]; [done|]. cbn [truthy length Nat.eqb bindE negb].
  destruct (endswith _ _); reflexivity.
Qed.

End Names.

Lemma quiet_reliable : reliable quiet.
Proof.
  intros st. split; [|split; [|split; [|split; [|split]]]]; intros; try reflexivity;
    eexists; reflexivity.
Qed.

(** ** [generate_qr_code] *)

Section Generator.

Context {QR Image : Type} (U : Unicode) (X : External QR Image).


(** C4.  A string that [validate_url] rejects makes [generate_qr_code]
    return [(False, "Please enter a valid URL.", None)] in the state it was
    called in: no external call is made and nothing is written. *)
Theorem generate_qr_code_rejects (s : str) (filename : PyVal) (st : State Image) :
  validate_url (PyStr s) = inr false ->
  generate_qr_code U X (PyStr s) filename st
  = (inr (false, py "Please enter a valid URL.", None), st).
Proof.
  intros Hv.
  unfold generate_qr_code, try_except_Exception, generate_qr_code_try, bind, liftE.
  rewrite Hv. reflexivity.
Qed.

(** C3.  For a valid URL [u] and no [filename], the name saved under is the
    characters of [u] itself that are alphanumeric, '-' or '_', cut to the
    first 20, followed by ".png", and a successful call reports and writes
    that file in "qr_codes_output"; for "example.com" this is
    "examplecom.png", written whenever no external call fails. *)
Theorem default_filename_spec :
  (forall u : str,
      validate_url (PyStr u) = inr true ->
      output_filename U (PyStr u) PyNone
      = inr (take 20 (List.filter (fun c => isalnum U c || (c =? 45) || (c =? 95)) u)
             ++ py ".png") /\
      forall (st st' : State Image) m oi,
        generate_qr_code U X (PyStr u) PyNone st = (inr (true, m, oi), st') ->
        exists img,
          m = success_message
                (py "qr_codes_output/"
                 ++ take 20 (List.filter (fun c => isalnum U c || (c =? 45) || (c =? 95)) u)
                 ++ py ".png") /\
          oi = Some img /\
          files st' !! (py "qr_codes_output/"
                        ++ take 20 (List.filter (fun c => isalnum U c || (c =? 45) || (c =? 95)) u)
                        ++ py ".png") = Some img) /\
  (forall st : State Image,
      reliable X ->
      exists img st',
        generate_qr_code U X (PyStr (py "example.com")) PyNone st
        = (inr (true, success_message (py "qr_codes_output/examplecom.png"), Some img), st') /\
        files st' !! py "qr_codes_output/examplecom.png" = Some img).
Proof.
  assert (forall u, List.filter (fun c => isalnum U c || (c =? 45) || (c =? 95)) u
                    = List.filter (fun c => isalnum U c || char_in_tuple c [45; 95]) u) as Hkeep.
  { intros u. apply filter_ext. intros c. unfold char_in_tuple. cbn [existsb].
    rewrite orb_false_r, orb_assoc. reflexivity. }
  split.
  - intros u Hv. rewrite Hkeep. fold (safe_url U u). split.
    + apply output_filename_default.
    + intros st st' m oi Hrun.
      apply generate_success, generate_try_success in Hrun
        as (name & img & _ & Hname & -> & -> & Hfiles & _).
      rewrite output_filename_default in Hname. injection Hname as <-.
      exists img. rewrite <- output_path_relative by apply default_name_relative.
      split; [reflexivity|]. split; [reflexivity|].
      rewrite Hfiles. apply lookup_insert_eq.
  - intros st Hrel.
    destruct (generate_runs U X (py "example.com") PyNone (py "examplecom.png") st Hrel)
      as (img & st' & Hrun & Hfile); [reflexivity | reflexivity |].
    exists img, st'. split; [exact Hrun | exact Hfile].
Qed.

Lemma bind_ext {A B} (c : M Image A) (k1 k2 : A -> M Image B) (st : State Image) :
  (forall a st1, k1 a st1 = k2 a st1) -> bind c k1 st = bind c k2 st.
Proof. intros H. unfold bind. destruct (c st) as [[e|a] st1]; [reflexivity | apply H]. Qed.

(** The empty [filename] is the same as no [filename]. *)
Lemma generate_empty_filename (url : PyVal) (st : State Image) :
  generate_qr_code U X url (PyStr []) st = generate_qr_code U X url PyNone st.
Proof.
  unfold generate_qr_code, try_except_Exception.
  assert (generate_qr_code_try U X url (PyStr []) st
          = generate_qr_code_try U X url PyNone st) as ->; [|reflexivity].
  unfold generate_qr_code_try.
  apply bind_ext. intros valid s1. destruct (negb valid); [reflexivity|].
  do 5 (apply bind_ext; intros ? ?).
  reflexivity.
Qed.

(** C6 (amended).  A non-empty [filename] is saved under itself when its
    lower-cased form ends in ".png" (so a name ending in ".PNG" is kept),
    and under [filename + ".png"], the suffix added once, when it does not;
    either way the lower-cased name saved under ends in ".png".  The empty
    [filename] is treated as not supplied: for every URL and state the call
    does exactly what it does with no [filename], so the name comes from
    the URL. *)
Theorem explicit_filename_spec (url : PyVal) (f : str) (st : State Image) :
  (forall (st' : State Image) (m : str) (oi : option Image),
      f <> [] ->
      generate_qr_code U X url (PyStr f) st = (inr (true, m, oi), st') ->
      exists name img,
        m = success_message (output_path name) /\
        oi = Some img /\
        files st' !! output_path name = Some img /\
        (endswith (lower U f) (py ".png") = false -> name = f ++ py ".png") /\
        (endswith (lower U f) (py ".png") = true -> name = f) /\
        (forall stem, f = stem ++ py ".PNG" -> name = f) /\
        endswith (lower U name) (py ".png") = true) /\
  generate_qr_code U X url (PyStr []) st = generate_qr_code U X url PyNone st /\
  output_filename U url (PyStr []) = output_filename U url PyNone.
Proof.
  split; [|split; [apply generate_empty_filename | reflexivity]].
  intros st' m oi Hf Hrun.
  apply generate_success, generate_try_success in Hrun
    as (name & img & _ & Hname & -> & -> & Hfiles & _).
  rewrite output_filename_explicit in Hname by exact Hf. injection Hname as <-.
  eexists _, img. split; [reflexivity|]. split; [reflexivity|].
  split; [rewrite Hfiles; apply lookup_insert_eq|].
  destruct (endswith (lower U f) (py ".png")) eqn:E.
  - split; [discriminate|]. split; [reflexivity|]. split; [reflexivity | exact E].
  - split; [reflexivity|]. split; [discriminate|]. split.
    + intros stem ->. rewrite lower_ends_png in E by reflexivity. discriminate.
    + apply lower_ends_png; reflexivity.
Qed.

(** C7.  Two successful calls for the same URL with no [filename], one
    after the other, report the same path, which depends on the URL alone;
    the second call puts its image where the first one put its own, and no
    other file appears. *)
Theorem same_url_overwrites (u : str) (st st1 st2 : State Image)
        (m1 m2 : str) (oi1 oi2 : option Image) :
  generate_qr_code U X (PyStr u) PyNone st = (inr (true, m1, oi1), st1) ->
  generate_qr_code U X (PyStr u) PyNone st1 = (inr (true, m2, oi2), st2) ->
  exists img1 img2,
    m1 = success_message (py "qr_codes_output/" ++ safe_url U u ++ py ".png") /\
    m2 = m1 /\
    oi1 = Some img1 /\ oi2 = Some img2 /\
    files st1 !! (py "qr_codes_output/" ++ safe_url U u ++ py ".png") = Some img1 /\
    files st2 = <[py "qr_codes_output/" ++ safe_url U u ++ py ".png" := img2]> (files st1) /\
    dom (files st2) = dom (files st1).
Proof.
  intros H1 H2.
  apply generate_success, generate_try_success in H1
    as (n1 & img1 & _ & Hn1 & -> & -> & Hf1 & Hd1).
  apply generate_success, generate_try_success in H2
    as (n2 & img2 & _ & Hn2 & -> & -> & Hf2 & Hd2).
  rewrite output_filename_default in Hn1, Hn2.
  injection Hn1 as <-. injection Hn2 as <-.
  rewrite output_path_relative in * by apply default_name_relative.
  exists img1, img2. repeat (split; [reflexivity|]).
  split; [rewrite Hf1; apply lookup_insert_eq|].
  split; [exact Hf2|].
  rewrite Hd2, Hd1, (assoc_L (∪)), (idemp_L (∪)). reflexivity.
Qed.

(** C8.  [__init__] sets version 1, box size 10, border 4 and medium error
    correction, and no operation of the generator, alone or in sequence,
    changes these attributes, whether it returns or raises. *)
Theorem configuration_fixed :
  (forall st : State Image,
      self (snd (__init__ st))
      = {| version := 1; box_size := 10; border := 4;
           error_correction := ERROR_CORRECT_M |}) /\
  (forall op (st : State Image), self (run U X op st) = self st) /\
  (forall ops (st : State Image),
      self (fold_left (fun s op => run U X op s) ops st) = self st).
Proof.
  assert (forall op (st : State Image), self (run U X op st) = self st) as Hop.
  { intros [url|url|url filename|url success message] st; cbn [run].
    - reflexivity.
    - reflexivity.
    - apply keeps_self_generate.
    - apply keeps_self_display. }
  split; [reflexivity|]. split; [exact Hop|].
  intros ops. induction ops as [|op ops IH]; intros st; cbn [fold_left].
  - reflexivity.
  - rewrite IH. apply Hop.
Qed.

(** C10.  "/./" is accepted by [validate_url]; none of its characters is
    kept, so the name saved under is ".png", which the extension test
    leaves alone, and a call in which no external call fails writes
    "qr_codes_output/.png" and returns success. *)
Theorem empty_stem_file :
  validate_url (PyStr (py "/./")) = inr true /\
  List.filter (fun c => isalnum U c || (c =? 45) || (c =? 95)) (py "/./") = [] /\
  output_filename U (PyStr (py "/./")) PyNone = inr (py ".png") /\
  ensure_png U (PyStr (py ".png")) = inr (py ".png") /\
  (forall st : State Image,
      reliable X ->
      exists img st',
        generate_qr_code U X (PyStr (py "/./")) PyNone st
        = (inr (true, success_message (py "qr_codes_output/.png"), Some img), st') /\
        files st' !! py "qr_codes_output/.png" = Some img).
Proof.
  split; [reflexivity|]. split; [reflexivity|].
  split; [apply (output_filename_default U (py "/./"))|].
  split.
  - unfold ensure_png, lower. rewrite lower_from_ascii by reflexivity. reflexivity.
  - intros st Hrel.
    destruct (generate_runs U X (py "/./") PyNone (py ".png") st Hrel)
      as (img & st' & Hrun & Hfile);
      [reflexivity | apply (output_filename_default U (py "/./")) |].
    exists img, st'. split; [exact Hrun | exact Hfile].
Qed.

End Generator.

(** ** Concrete runs *)



Lemma generate_qr_code_rejects_witness :
  generate_qr_code ascii_only quiet (PyStr []) PyNone fresh
  = (inr (false, py "Please enter a valid URL.", None), fresh).
Proof. apply generate_qr_code_rejects. reflexivity. Defined.

Lemma default_filename_spec_witness :
  exists img st',
    generate_qr_code ascii_only quiet (PyStr (py "example.com")) PyNone fresh
    = (inr (true, success_message (py "qr_codes_output/examplecom.png"), Some img), st') /\
    files st' !! py "qr_codes_output/examplecom.png" = Some img.
Proof.
  apply (proj2 (default_filename_spec ascii_only quiet) fresh). exact quiet_reliable.
Defined.

Lemma explicit_filename_spec_witness :
  files (snd (generate_qr_code ascii_only quiet (PyStr (py "example.com"))
                (PyStr (py "qr")) fresh)) !! py "qr_codes_output/qr.png"
  = Some (py "https://example.com") /\
  files (snd (generate_qr_code ascii_only quiet (PyStr (py "example.com"))
                (PyStr (py "QR.PNG")) fresh)) !! py "qr_codes_output/QR.PNG"
  = Some (py "https://example.com") /\
  generate_qr_code ascii_only quiet (PyStr (py "example.com")) (PyStr []) fresh
  = generate_qr_code ascii_only quiet (PyStr (py "example.com")) PyNone fresh.
Proof.
  split; [|split].
  - destruct (proj1 (explicit_filename_spec ascii_only quiet (PyStr (py "example.com"))
                       (py "qr") fresh)
                (snd (generate_qr_code ascii_only quiet (PyStr (py "example.com"))
                        (PyStr (py "qr")) fresh))
                (success_message (py "qr_codes_output/qr.png"))
                (Some (py "https://example.com")))
      as (name & img & _ & Himg & Hfile & Happend & _);
      [discriminate | vm_compute; reflexivity |].
    rewrite (Happend eq_refl) in Hfile. injection Himg as <-. exact Hfile.
  - destruct (proj1 (explicit_filename_spec ascii_only quiet (PyStr (py "example.com"))
                       (py "QR.PNG") fresh)
                (snd (generate_qr_code ascii_only quiet (PyStr (py "example.com"))
                        (PyStr (py "QR.PNG")) fresh))
                (success_message (py "qr_codes_output/QR.PNG"))
                (Some (py "https://example.com")))
      as (name & img & _ & Himg & Hfile & _ & Hkeep & _);
      [discriminate | vm_compute; reflexivity |].
    rewrite (Hkeep eq_refl) in Hfile. injection Himg as <-. exact Hfile.
  - apply (explicit_filename_spec ascii_only quiet (PyStr (py "example.com")) [] fresh).
Defined.

(** The claim as first stated fails for the empty [filename]: it counts as
    no name at all, and the file is named after the URL, not ".png". *)
Lemma explicit_filename_empty_counterexample :
  endswith (lower ascii_only []) (py ".png") = false /\
  fst (generate_qr_code ascii_only quiet (PyStr (py "example.com")) (PyStr []) fresh)
  = inr (true, success_message (py "qr_codes_output/examplecom.png"),
         Some (py "https://example.com")) /\
  py "qr_codes_output/examplecom.png" <> output_path ([] ++ py ".png").
Proof.
  split; [reflexivity|]. split; [vm_compute; reflexivity|]. vm_compute. discriminate.
Qed.

Lemma same_url_overwrites_witness :
  exists img1 img2,
    success_message (py "qr_codes_output/examplecom.png")
    = success_message (py "qr_codes_output/" ++ safe_url ascii_only (py "example.com") ++ py ".png") /\
    success_message (py "qr_codes_output/examplecom.png")
    = success_message (py "qr_codes_output/examplecom.png") /\
    Some (py "https://example.com") = Some img1 /\
    Some (py "https://example.com") = Some img2 /\
    files (snd (generate_qr_code ascii_only quiet (PyStr (py "example.com")) PyNone fresh))
      !! (py "qr_codes_output/" ++ safe_url ascii_only (py "example.com") ++ py ".png")
    = Some img1 /\
    files (snd (generate_qr_code ascii_only quiet (PyStr (py "example.com")) PyNone
                  (snd (generate_qr_code ascii_only quiet (PyStr (py "example.com"))
                          PyNone fresh))))
    = <[py "qr_codes_output/" ++ safe_url ascii_only (py "example.com") ++ py ".png" := img2]>
        (files (snd (generate_qr_code ascii_only quiet (PyStr (py "example.com")) PyNone fresh))) /\
    dom (files (snd (generate_qr_code ascii_only quiet (PyStr (py "example.com")) PyNone
                       (snd (generate_qr_code ascii_only quiet (PyStr (py "example.com"))
                               PyNone fresh)))))
    = dom (files (snd (generate_qr_code ascii_only quiet (PyStr (py "example.com")) PyNone fresh))).
Proof.
  apply (same_url_overwrites ascii_only quiet (py "example.com") fresh).
  - vm_compute. reflexivity.
  - vm_compute. reflexivity.
Defined.

Lemma empty_stem_file_witness :
  exists img st',
    generate_qr_code ascii_only quiet (PyStr (py "/./")) PyNone fresh
    = (inr (true, success_message (py "qr_codes_output/.png"), Some img), st') /\
    files st' !! py "qr_codes_output/.png" = Some img.
Proof.
  destruct (empty_stem_file ascii_only quiet) as (_ & _ & _ & _ & H).
  apply (H fresh quiet_reliable).
Defined.

(** * Further properties *)

(** ** What [generate_qr_code] touches *)

Section Effects.

Context {QR Image : Type} (U : Unicode) (X : External QR Image).

(** Only a [str] is ever accepted. *)
Lemma validate_url_accepts_str (url : PyVal) :
  validate_url url = inr true -> exists s, url = PyStr s.
Proof.
  intros H. destruct url as [|b|z|s|l|cls t]; unfold validate_url in H; cbn in H.
  - discriminate.
  - destruct b; discriminate.
  - destruct (z =? 0)%Z; discriminate.
  - by exists s.
  - destruct l; discriminate.
  - destruct t as [e|b]; cbn in H; [discriminate|].
    rewrite orb_true_r in H. discriminate.
Qed.

(** The state a successful run of the [try] block ends in. *)
Lemma generate_try_success_state (url filename : PyVal) (st st' : State Image)
      (m : str) (oi : option Image) :
  generate_qr_code_try U X url filename st = (inr (true, m, oi), st') ->
  exists payload name img,
    format_url url = inr payload /\
    output_filename U url filename = inr name /\
    oi = Some img /\
    let s5 :=
      log (EvPathExists (py "qr_codes_output"))
        (log (EvMakeImage (py "black") (py "white"))
           (log (EvMake true)
              (log (EvAddData payload)
                 (log (EvQRCode (version (self st)) (error_correction (self st))
                                (box_size (self st)) (border (self st))) st)))) in
    let s6 :=
      if path_exists (py "qr_codes_output") st then s5
      else log (EvMakedirs (py "qr_codes_output")) (add_dir (py "qr_codes_output") s5) in
    st' = log (EvSave (output_path name)) (write_file (output_path name) img s6).
Proof.
  unfold generate_qr_code_try. intros H.
  apply bind_returns in H as (valid & s1 & Hv & H). apply liftE_returns in Hv as [Hv ->].
  destruct valid; cbn [negb] in H; [|apply ret_returns in H as [[=] _]].
  apply bind_returns in H as (furl & s1 & Hf & H). apply liftE_returns in Hf as [Hf ->].
  apply bind_returns in H as (me & s1 & Hme & H). injection Hme as <- <-.
  apply bind_returns in H as (q0 & s1 & Hq0 & H). apply call_returns in Hq0 as [Hq0 ->].
  apply bind_returns in H as (q1 & s2 & Hq1 & H). apply call_returns in Hq1 as [Hq1 ->].
  apply bind_returns in H as (q2 & s3 & Hq2 & H). apply call_returns in Hq2 as [Hq2 ->].
  apply bind_returns in H as (img & s4 & Hi & H). apply call_returns in Hi as [Hi ->].
  apply bind_returns in H as (named & s5 & Hn & H). apply liftE_returns in Hn as [Hn ->].
  apply bind_returns in H as (chosen & s5 & Hc & H).
  apply bind_returns in H as (name & s6 & He & H). apply liftE_returns in He as [He ->].
  apply bind_returns in H as (found & s7 & Hx & H). apply call_returns in Hx as [Hx ->].
  apply bind_returns in H as (u1 & s8 & Hm & H).
  apply bind_returns in H as (u2 & s9 & Hs & H). apply save_returns in Hs as ->.
  apply ret_returns in H as [[= -> ->] ->].
  assert (output_filename U url filename = inr name /\ s5 = log (EvMakeImage (py "black") (py "white"))
           (log (EvMake true)
              (log (EvAddData furl)
                 (log (EvQRCode (version (self st)) (error_correction (self st))
                                (box_size (self st)) (border (self st))) st))))
    as [Hname ->].
  { unfold output_filename. rewrite Hn. cbn [bindE].
    destruct (negb named).
    - apply liftE_returns in Hc as [-> ->]. split; [exact He | reflexivity].
    - apply ret_returns in Hc as [-> ->]. split; [exact He | reflexivity]. }
  exists furl, name, img. split; [exact Hf|]. split; [exact Hname|]. split; [reflexivity|].
  cbn zeta. injection Hx as <-.
  change (bool_decide _ || bool_decide _) with (path_exists (py "qr_codes_output") st) in Hm.
  destruct (path_exists (py "qr_codes_output") st); cbn [negb] in Hm.
  - apply ret_returns in Hm as [_ ->]. reflexivity.
  - apply os_makedirs_returns in Hm as ->. reflexivity.
Qed.

(** X1.  A successful call makes its external calls in this order, each
    once: the symbol is built from the generator's four attributes, the
    payload is the formatted URL, [make] is asked to fit, the image is black
    on white, the directory is created only when the path does not exist,
    and the image is saved last. *)
Theorem generate_qr_code_calls (url filename : PyVal) (st st' : State Image)
        (m : str) (oi : option Image) :
  generate_qr_code U X url filename st = (inr (true, m, oi), st') ->
  exists payload name,
    format_url url = inr payload /\
    output_filename U url filename = inr name /\
    calls st' =
      calls st
      ++ [EvQRCode (version (self st)) (error_correction (self st))
                   (box_size (self st)) (border (self st));
          EvAddData payload; EvMake true;
          EvMakeImage (py "black") (py "white");
          EvPathExists (py "qr_codes_output")]
      ++ (if path_exists (py "qr_codes_output") st then []
          else [EvMakedirs (py "qr_codes_output")])
      ++ [EvSave (output_path name)].
Proof.
  intros H. apply generate_success, generate_try_success_state in H
    as (payload & name & img & Hp & Hn & _ & ->).
  exists payload, name. split; [exact Hp|]. split; [exact Hn|].
  destruct (path_exists (py "qr_codes_output") st);
    cbn [calls log add_dir write_file]; rewrite <- !app_assoc; reflexivity.
Qed.

(** X2.  After a successful call the output directory exists; it was
    created by this call exactly when the path did not exist before, and a
    successful call that follows creates nothing more. *)
Theorem generate_qr_code_directory (url filename : PyVal) (st st' : State Image)
        (m : str) (oi : option Image) :
  generate_qr_code U X url filename st = (inr (true, m, oi), st') ->
  path_exists (py "qr_codes_output") st' = true /\
  dirs st' = (if path_exists (py "qr_codes_output") st then dirs st
              else {[py "qr_codes_output"]} ∪ dirs st) /\
  forall url2 filename2 st'' m2 oi2,
    generate_qr_code U X url2 filename2 st' = (inr (true, m2, oi2), st'') ->
    dirs st'' = dirs st'.
Proof.
  intros H.
  assert (forall (a b : State Image) u f m0 o0,
             generate_qr_code U X u f a = (inr (true, m0, o0), b) ->
             dirs b = (if path_exists (py "qr_codes_output") a then dirs a
                       else {[py "qr_codes_output"]} ∪ dirs a) /\
             exists p img, files b = <[p := img]> (files a)) as Hstep.
  { intros a b u f m0 o0 Hr.
    apply generate_success, generate_try_success_state in Hr
      as (payload & name & img & _ & _ & _ & ->).
    split; [|exists (output_path name), img];
      destruct (path_exists (py "qr_codes_output") a); reflexivity. }
  destruct (Hstep _ _ _ _ _ _ H) as [Hd (p & img & Hf)].
  assert (path_exists (py "qr_codes_output") st' = true) as Hex.
  { revert Hd Hf. generalize (py "qr_codes_output"). intros out Hd Hf.
    unfold path_exists in *. rewrite Hd, Hf.
    destruct (bool_decide (out ∈ dirs st)) eqn:E1; cbn [orb].
    - rewrite E1. reflexivity.
    - destruct (bool_decide (is_Some (files st !! out))) eqn:E2.
      + apply orb_true_iff. right. apply bool_decide_eq_true.
        apply bool_decide_eq_true in E2. apply lookup_insert_is_Some.
        destruct (decide (p = out)); [by left | by right].
      + apply orb_true_iff. left. apply bool_decide_eq_true.
        apply elem_of_union. left. by apply elem_of_singleton. }
  split; [exact Hex|]. split; [exact Hd|].
  intros url2 filename2 st'' m2 oi2 H2.
  destruct (Hstep _ _ _ _ _ _ H2) as [Hd2 _]. rewrite Hd2, Hex. reflexivity.
Qed.

(** X3.  Whatever its outcome, a call asks the operating system for
    nothing but what its arguments name: every save it requests is at the
    path derived from [url] and [filename], every directory it asks to
    create is "qr_codes_output", asked for only when that path was reported
    missing, and it makes at most seven external calls. *)
Theorem generate_qr_code_requests (url filename : PyVal) (st : State Image) :
  exists tr,
    calls (snd (generate_qr_code U X url filename st)) = calls st ++ tr /\
    (forall p, In (EvSave p) tr ->
               exists name,
                 output_filename U url filename = inr name /\ p = output_path name) /\
    (forall p, In (EvMakedirs p) tr ->
               p = py "qr_codes_output" /\
               path_exists (py "qr_codes_output") st = false) /\
    (length tr <= 7)%nat.
Proof.
  unfold output_filename, output_path, path_exists.
  unfold generate_qr_code, try_except_Exception, generate_qr_code_try, bind, liftE, ret,
    get_self, QRCode, add_data, make, make_image, os_path_exists, os_makedirs, save, call.
  generalize (py "qr_codes_output"). intros out.
  repeat case_match; simplify_eq; cbn [snd calls dirs files log add_dir write_file] in *.
  all: eexists; split;
    [first [ rewrite <- ?app_assoc; reflexivity | symmetry; apply app_nil_r ]|].
  all: split; [|split]; [| |cbn; lia].
  all: intros tgt Hin; cbn [In app] in Hin; intuition (try discriminate).
  all: try match goal with E : EvSave _ = EvSave _ |- _ => injection E as <- end.
  all: try match goal with E : EvMakedirs _ = EvMakedirs _ |- _ => injection E as <- end.
  all: try reflexivity.
  all: try (match goal with
            | E : negb (_ || _) = true |- _ => apply negb_true_iff in E; exact E
            end).
  all: match goal with
       | E : ensure_png _ _ = inr ?n |- _ => exists n; split; [|reflexivity]
       end;
    repeat match goal with E : truthy _ = _ |- _ => rewrite E; clear E end;
    cbn [bindE];
    repeat match goal with E : negb _ = _ |- _ => rewrite E; clear E end;
    repeat match goal with E : default_filename _ _ = _ |- _ => rewrite E; clear E end;
    cbn [bindE]; assumption.
Qed.


(** A result of the [try] block with a false flag is the early return. *)
Lemma generate_try_failure (url filename : PyVal) (st st' : State Image)
      (m : str) (oi : option Image) :
  generate_qr_code_try U X url filename st = (inr (false, m, oi), st') ->
  validate_url url = inr false /\ m = py "Please enter a valid URL." /\
  oi = None /\ st' = st.
Proof.
  unfold generate_qr_code_try. intros H.
  apply bind_returns in H as (valid & s1 & Hv & H). apply liftE_returns in Hv as [Hv ->].
  destruct valid; cbn [negb] in H.
  - exfalso.
    apply bind_returns in H as (furl & s1 & _ & H).
    apply bind_returns in H as (me & s2 & _ & H).
    apply bind_returns in H as (q0 & s3 & _ & H).
    apply bind_returns in H as (q1 & s4 & _ & H).
    apply bind_returns in H as (q2 & s5 & _ & H).
    apply bind_returns in H as (img & s6 & _ & H).
    apply bind_returns in H as (named & s7 & _ & H).
    apply bind_returns in H as (chosen & s8 & _ & H).
    apply bind_returns in H as (name & s9 & _ & H).
    apply bind_returns in H as (found & s10 & _ & H).
    apply bind_returns in H as (u1 & s11 & _ & H).
    apply bind_returns in H as (u2 & s12 & _ & H).
    apply ret_returns in H as [[=] _].
  - apply ret_returns in H as [[= -> ->] ->]. done.
Qed.

(** X5.  Every result the call returns is one of three: success with an
    image and the path in the message; the invalid-URL result, in an
    unchanged state; or an error result carrying the message of an
    exception.  The image is present exactly when the flag is true. *)
Theorem generate_qr_code_result (url filename : PyVal) (st st' : State Image)
        (ok : bool) (m : str) (oi : option Image) :
  generate_qr_code U X url filename st = (inr (ok, m, oi), st') ->
  (ok = true /\
   exists name img,
     output_filename U url filename = inr name /\
     m = success_message (output_path name) /\ oi = Some img) \/
  (ok = false /\ oi = None /\ m = py "Please enter a valid URL." /\ st' = st) \/
  (ok = false /\ oi = None /\
   exists e, derives_from_Exception (exn_class e) = true /\
             fst (generate_qr_code_try U X url filename st) = inl e /\
             m = py "Error generating QR code: " ++ exn_msg e).
Proof.
  intros H. destruct ok.
  - left. split; [reflexivity|].
    apply generate_success, generate_try_success in H
      as (name & img & _ & Hn & -> & -> & _).
    by exists name, img.
  - right. unfold generate_qr_code, try_except_Exception in H.
    destruct (generate_qr_code_try U X url filename st) as [[e|r] s1] eqn:E.
    + right. destruct (derives_from_Exception (exn_class e)) eqn:D; [|discriminate].
      apply ret_returns in H as [[= -> ->] ->].
      split; [reflexivity|]. split; [reflexivity|]. by exists e.
    + left. injection H as -> ->.
      apply generate_try_failure in E as (_ & -> & -> & ->). done.
Qed.

(** X6.  When [make] rejects the payload (a URL too long for any symbol),
    the call returns the error result with the library's message after
    three external calls, and the file system is as it was: no directory is
    created and no file is written. *)
Theorem generate_qr_code_overflow (s : str) (filename : PyVal) (st : State Image)
        (payload : str) (q0 q1 : QR) (e : exn) :
  validate_url (PyStr s) = inr true ->
  format_url (PyStr s) = inr payload ->
  ext_QRCode X st (version (self st)) (error_correction (self st))
             (box_size (self st)) (border (self st)) = inr q0 ->
  ext_add_data X
    (log (EvQRCode (version (self st)) (error_correction (self st))
                   (box_size (self st)) (border (self st))) st) q0 payload = inr q1 ->
  ext_make X
    (log (EvAddData payload)
       (log (EvQRCode (version (self st)) (error_correction (self st))
                      (box_size (self st)) (border (self st))) st)) q1 true = inl e ->
  derives_from_Exception (exn_class e) = true ->
  exists st',
    generate_qr_code U X (PyStr s) filename st
    = (inr (false, py "Error generating QR code: " ++ exn_msg e, None), st') /\
    dirs st' = dirs st /\ files st' = files st /\
    calls st' = calls st
                ++ [EvQRCode (version (self st)) (error_correction (self st))
                             (box_size (self st)) (border (self st));
                    EvAddData payload; EvMake true].
Proof.
  intros Hv Hf H0 H1 H2 He.
  unfold generate_qr_code, try_except_Exception, generate_qr_code_try.
  erewrite bind_runs by (unfold liftE; rewrite Hv; reflexivity). cbn [negb].
  erewrite bind_runs by (unfold liftE; rewrite Hf; reflexivity).
  erewrite bind_runs by reflexivity.
  erewrite bind_runs by (unfold QRCode, call; rewrite H0; reflexivity).
  erewrite bind_runs by (unfold add_data, call; rewrite H1; reflexivity).
  unfold bind at 1, make, call. rewrite H2, He.
  eexists. split; [reflexivity|]. cbn [dirs files calls log].
  split; [reflexivity|]. split; [reflexivity|].
  rewrite <- !app_assoc. reflexivity.
Qed.

End Effects.

(** ** Names and payloads *)

Section Sanitiser.

Context (U : Unicode).

Lemma kept_keep (c : N) :
  (isalnum U c || char_in_tuple c [45; 95]) = kept U c.
Proof.
  unfold kept, char_in_tuple. cbn [existsb]. rewrite orb_false_r, orb_assoc. reflexivity.
Qed.

Lemma safe_url_kept (u : str) :
  safe_url U u = take 20 (List.filter (kept U) u).
Proof.
  unfold safe_url. f_equal. apply filter_ext. intros c. apply kept_keep.
Qed.

Lemma startswith_app (s t p : str) :
  startswith s p = true -> startswith (s ++ t) p = true.
Proof.
  rewrite !startswith_prefix. intros [k ->]. exists (k ++ t). by rewrite app_assoc.
Qed.

(** X7.  Whatever string it is given, [format_url] returns one that starts
    with "http://" or "https://", and [validate_url] accepts every such
    result, the one for the empty string included. *)
Theorem format_url_validates (s : str) :
  exists n,
    format_url (PyStr s) = inr n /\
    (py "http://" `prefix_of` n \/ py "https://" `prefix_of` n) /\
    validate_url (PyStr n) = inr true.
Proof.
  assert (forall n, startswith_any n [py "http://"; py "https://"] = true ->
                    validate_url (PyStr n) = inr true) as Hvalid.
  { intros n Hn. rewrite validate_url_str, Hn.
    destruct n as [|c n]; [discriminate Hn | reflexivity]. }
  unfold format_url. destruct (startswith_any s _) eqn:E; cbn [negb].
  - exists s. split; [reflexivity|]. split; [by apply startswith_any_http | by apply Hvalid].
  - exists (py "https://" ++ s). split; [reflexivity|].
    assert (py "https://" `prefix_of` py "https://" ++ s) as Hp by (by exists s).
    split; [by right|]. apply Hvalid, startswith_any_http. by right.
Qed.

(** X8.  The stem of the default file name has at most 20 characters, all
    of them alphanumeric, '-' or '_' (so never '/', '\' or '.'), and
    sanitising it again changes nothing. *)
Theorem safe_url_spec (u : str) :
  (length (safe_url U u) <= 20)%nat /\
  (forall c, In c (safe_url U u) -> kept U c = true) /\
  ~ In 47 (safe_url U u) /\ ~ In 92 (safe_url U u) /\ ~ In 46 (safe_url U u) /\
  safe_url U (safe_url U u) = safe_url U u.
Proof.
  assert (forall c, In c (safe_url U u) -> kept U c = true) as Hk.
  { intros c Hc. rewrite safe_url_kept in Hc.
    apply list_elem_of_In, (subseteq_take 20), list_elem_of_In, filter_In in Hc.
    apply Hc. }
  split; [|split; [exact Hk|split; [|split; [|split]]]].
  - rewrite safe_url_kept, length_take. lia.
  - intros H. apply Hk in H. discriminate H.
  - intros H. apply Hk in H. discriminate H.
  - intros H. apply Hk in H. discriminate H.
  - rewrite (safe_url_kept (safe_url U u)).
    rewrite forallb_filter_id.
    + rewrite safe_url_kept, take_take. reflexivity.
    + apply forallb_forall. exact Hk.
Qed.

Lemma safe_url_drop (a b : str) (c : N) :
  kept U c = false -> safe_url U (a ++ c :: b) = safe_url U (a ++ b).
Proof.
  intros Hc. rewrite !safe_url_kept, !List.filter_app. cbn [List.filter].
  rewrite Hc. reflexivity.
Qed.

(** X9.  The default name ignores every character that is not kept and
    everything after the twentieth kept character: URLs that differ only
    there are saved under the same name. *)
Theorem safe_url_collisions :
  (forall (a b : str) (c : N),
      kept U c = false -> safe_url U (a ++ c :: b) = safe_url U (a ++ b)) /\
  (forall u v : str,
      (20 <= length (List.filter (kept U) u))%nat ->
      safe_url U (u ++ v) = safe_url U u).
Proof.
  split.
  - apply safe_url_drop.
  - intros u v Hlen. rewrite !safe_url_kept, List.filter_app.
    apply take_app_le. exact Hlen.
Qed.

(** X10.  Every valid URL has a different valid URL (the same with a
    trailing '/') that is encoded as a different payload and saved under
    the same file name. *)
Theorem trailing_slash_collides (u : str) :
  validate_url (PyStr u) = inr true ->
  u ++ py "/" <> u /\
  validate_url (PyStr (u ++ py "/")) = inr true /\
  output_filename U (PyStr (u ++ py "/")) PyNone = output_filename U (PyStr u) PyNone /\
  exists n1 n2,
    format_url (PyStr u) = inr n1 /\ format_url (PyStr (u ++ py "/")) = inr n2 /\
    n1 <> n2.
Proof.
  intros Hv. split; [|split; [|split]].
  - intros H. apply (f_equal length) in H. rewrite length_app in H. cbn in H. lia.
  - rewrite validate_url_str in *. injection Hv as Hv. f_equal.
    apply andb_true_iff in Hv as [Hne Hrule]. apply andb_true_iff. split.
    + rewrite length_app, Nat.add_comm. reflexivity.
    + apply orb_true_iff in Hrule as [Hh|Hd]; apply orb_true_iff; [left|right].
      * apply startswith_any_http in Hh. apply startswith_any_http.
        destruct Hh as [Hh|Hh]; [left|right];
          apply startswith_prefix, startswith_app, startswith_prefix, Hh.
      * apply andb_true_iff in Hd as [Hd _]. apply andb_true_iff in Hd as [Hin Hst].
        apply andb_true_iff. split; [apply andb_true_iff; split|].
        -- unfold char_in in *. rewrite existsb_app, Hin. reflexivity.
        -- destruct u as [|c u]; [discriminate Hne | exact Hst].
        -- unfold endswith. rewrite rev_app_distr. reflexivity.
  - rewrite !output_filename_default. f_equal. f_equal.
    change (py "/") with [47].
    rewrite (safe_url_drop u [] 47) by reflexivity. by rewrite app_nil_r.
  - assert (forall x n, format_url (PyStr x) = inr n ->
                        length n = length x \/ length n = (length x + 8)%nat) as Hlen.
    { intros x n. unfold format_url. destruct (negb _); intros [= <-]; [right|by left].
      simpl. lia. }
    destruct (format_url_str u) as [n1 H1].
    destruct (format_url_str (u ++ py "/")) as [n2 H2].
    exists n1, n2. split; [exact H1|]. split; [exact H2|].
    intros ->. apply Hlen in H1, H2. rewrite length_app in H2. cbn in H2. lia.
Qed.

End Sanitiser.

Section Paths.

Context {QR Image : Type} (U : Unicode) (X : External QR Image).

(** X11.  A non-empty [filename] is used as it is, unsanitised: the name
    is the filename, with ".png" added when missing; when it starts with
    '/' the image is saved at that absolute path and the output directory
    plays no part, otherwise at the string "qr_codes_output/" followed by
    the name, in which no component such as ".." is removed. *)
Theorem explicit_filename_path (url : PyVal) (f : str) (st st' : State Image)
        (m : str) (oi : option Image) :
  f <> [] ->
  generate_qr_code U X url (PyStr f) st = (inr (true, m, oi), st') ->
  exists name img,
    (name = f \/ name = f ++ py ".png") /\ oi = Some img /\
    (startswith f (py "/") = true ->
     m = success_message name /\ files st' !! name = Some img) /\
    (startswith f (py "/") = false ->
     m = success_message (py "qr_codes_output/" ++ name) /\
     files st' !! (py "qr_codes_output/" ++ name) = Some img).
Proof.
  intros Hf Hrun.
  apply generate_success, generate_try_success in Hrun
    as (name & img & _ & Hname & -> & -> & Hfiles & _).
  rewrite output_filename_explicit in Hname by exact Hf. injection Hname as Hname.
  assert (startswith name (py "/") = startswith f (py "/")) as Hstart.
  { rewrite <- Hname. destruct f as [|c f]; [done|].
    destruct (endswith _ _); reflexivity. }
  exists name, img. split; [|split; [reflexivity|split]].
  - rewrite <- Hname. destruct (endswith _ _); [by left | by right].
  - intros Habs. rewrite <- Hstart in Habs.
    assert (output_path name = name) as Hp
      by (unfold output_path, os_path_join; rewrite Habs; reflexivity).
    rewrite Hp in *. split; [reflexivity|]. rewrite Hfiles. apply lookup_insert_eq.
  - intros Hrel. rewrite <- Hstart in Hrel.
    rewrite (output_path_relative _ Hrel) in *.
    split; [reflexivity|]. rewrite Hfiles. apply lookup_insert_eq.
Qed.

End Paths.

(** ** [main] *)

Section Session.

Context {QR Image : Type} (U : Unicode) (ws : N -> bool) (X : External QR Image).
Context (V : State Image -> Image -> option exn).

Abbreviation K := (Console Image).

Lemma bindC_runs {A B} (c : C Image A) (f : A -> C Image B) (k k1 : K) (a : A) :
  c k = (inr a, k1) -> bindC c f k = f a k1.
Proof. unfold bindC. intros ->. reflexivity. Qed.

Lemma bindC_raises {A B} (c : C Image A) (f : A -> C Image B) (k k1 : K) (e : exn) :
  c k = (inl e, k1) -> bindC c f k = (inl e, k1).
Proof. unfold bindC. intros ->. reflexivity. Qed.

Lemma bindC_returns {A B} (c : C Image A) (f : A -> C Image B) (k k' : K) (b : B) :
  bindC c f k = (inr b, k') ->
  exists a k1, c k = (inr a, k1) /\ f a k1 = (inr b, k').
Proof. unfold bindC. destruct (c k) as [[e|a] k1]; [discriminate|]. eauto. Qed.

Lemma say_runs (line : str) (k : K) :
  say line k = (inr tt, mkConsole (printed [line] (world k)) (stdin k) (shown k)).
Proof. reflexivity. Qed.

Lemma bindC_say {B} (line : str) (f : unit -> C Image B) (k : K) :
  bindC (say line) f k = f tt (mkConsole (printed [line] (world k)) (stdin k) (shown k)).
Proof. reflexivity. Qed.

Lemma input_line (prompt text : str) (rest : list Key) (k : K) :
  stdin k = Line text :: rest ->
  input prompt k = (inr text, mkConsole (printed [prompt] (world k)) rest (shown k)).
Proof. intros H. unfold input. rewrite bindC_say. cbn [stdin]. rewrite H. reflexivity. Qed.

Lemma input_ctrlc (prompt : str) (rest : list Key) (k : K) :
  stdin k = CtrlC :: rest ->
  input prompt k
  = (inl (Raise KeyboardInterrupt []), mkConsole (printed [prompt] (world k)) rest (shown k)).
Proof. intros H. unfold input. rewrite bindC_say. cbn [stdin]. rewrite H. reflexivity. Qed.

Lemma input_eof (prompt : str) (k : K) :
  stdin k = [] ->
  input prompt k
  = (inl (Raise OtherException (py "EOF when reading a line")),
     mkConsole (printed [prompt] (world k)) [] (shown k)).
Proof.
  intros H. unfold input. rewrite bindC_say. cbn [stdin]. rewrite H.
  destruct k as [w i s]. cbn in *. subst. reflexivity.
Qed.

Lemma printed_printed (a b : list (list N)) (w : State Image) :
  printed b (printed a w) = printed (a ++ b) w.
Proof. unfold printed. cbn. by rewrite app_assoc. Qed.

Lemma str_eqb_eq (a b : str) : str_eqb a b = true <-> a = b.
Proof.
  revert b; induction a as [|x a IH]; intros [|y b]; cbn; try (split; congruence).
  rewrite andb_true_iff, N.eqb_eq, IH. split; [intros [-> ->]; done | intros [= -> ->]; done].
Qed.

Lemma str_eqb_neq (a b : str) : a <> b -> str_eqb a b = false.
Proof. intros H. destruct (str_eqb a b) eqn:E; [|done]. by apply str_eqb_eq in E. Qed.

(** X12.  Choice "2", with any white space around it, prints "Goodbye!"
    and ends the loop normally: [main] returns, without an external call
    and without touching a file. *)
Theorem main_loop_quit (n : nat) (k : K) (text : str) (rest : list Key) :
  stdin k = Line text :: rest ->
  strip ws text = py "2" ->
  exists k',
    main_loop U ws X V (S n) k = (inr Returned, k') /\
    stdin k' = rest /\
    world k' = printed (menu_lines ++ [py "Goodbye!"]) (world k) /\
    shown k' = shown k.
Proof.
  intros Hin Hs.
  assert (menu_try U ws X V k
          = (inr Break, mkConsole (printed (menu_lines ++ [py "Goodbye!"]) (world k))
                                  rest (shown k))) as Hm.
  { unfold menu_try. rewrite !bindC_say.
 erewrite bindC_runs by (apply input_line; cbn [stdin]; exact Hin).
 cbv zeta. cbn [world stdin shown]. rewrite !printed_printed. rewrite Hs.
    change (str_eqb (py "2") (py "2")) with true. cbv iota.
    rewrite bindC_say. cbn [world stdin shown]. rewrite printed_printed. reflexivity. }
  exists (mkConsole (printed (menu_lines ++ [py "Goodbye!"]) (world k)) rest (shown k)).
  split; [|split; [|split]]; [|reflexivity..].
  assert (main_iteration U ws X V k
          = (inr Break, mkConsole (printed (menu_lines ++ [py "Goodbye!"]) (world k))
                                  rest (shown k))) as Hi
    by (unfold main_iteration; rewrite Hm; reflexivity).
  cbn [main_loop]. rewrite (bindC_runs _ _ _ _ _ Hi). reflexivity.
Qed.

(** X13.  A choice other than "1" or "2", and an empty URL after choice
    "1", only print a message: the loop goes on, no external call is made
    and [generate_qr_code] is not entered. *)
Theorem main_iteration_bad_input (k : K) (text : str) (rest : list Key) :
  stdin k = Line text :: rest ->
  (strip ws text <> py "1" -> strip ws text <> py "2" ->
   main_iteration U ws X V k
   = (inr Continue,
      mkConsole (printed (menu_lines ++ [py "Invalid choice. Please enter 1 or 2."]) (world k))
                rest (shown k))) /\
  (forall text2 rest2,
      strip ws text = py "1" -> rest = Line text2 :: rest2 -> strip ws text2 = [] ->
      main_iteration U ws X V k
      = (inr Continue,
         mkConsole (printed (menu_lines
                             ++ [[10] ++ py "Enter the URL to generate QR code: ";
                                 py "Error: URL cannot be empty."]) (world k))
                   rest2 (shown k))).
Proof.
  intros Hin. split.
  - intros H1 H2. unfold main_iteration.
    assert (menu_try U ws X V k
            = (inr Continue,
               mkConsole (printed (menu_lines ++ [py "Invalid choice. Please enter 1 or 2."])
                                  (world k)) rest (shown k))) as ->; [|reflexivity].
    unfold menu_try. rewrite !bindC_say.
    erewrite bindC_runs by (apply input_line; cbn [stdin]; exact Hin).
    cbv zeta. cbn [world stdin shown]. rewrite !printed_printed. rewrite (str_eqb_neq _ _ H1), (str_eqb_neq _ _ H2).
    rewrite bindC_say. cbn [world stdin shown]. rewrite printed_printed. reflexivity.
  - intros text2 rest2 H1 -> H2. unfold main_iteration.
    assert (menu_try U ws X V k
            = (inr Continue,
               mkConsole (printed (menu_lines
                                   ++ [[10] ++ py "Enter the URL to generate QR code: ";
                                       py "Error: URL cannot be empty."]) (world k))
                         rest2 (shown k))) as ->; [|reflexivity].
    unfold menu_try. rewrite !bindC_say.
    erewrite bindC_runs by (apply input_line; cbn [stdin]; exact Hin).
    cbv zeta. cbn [world stdin shown]. rewrite !printed_printed. rewrite H1.
    change (str_eqb (py "1") (py "2")) with false.
    change (str_eqb (py "1") (py "1")) with true. cbv iota.
    erewrite bindC_runs by (apply input_line; reflexivity).
    cbv zeta. rewrite H2. cbn [length Nat.eqb].
    rewrite bindC_say. cbn [world stdin shown]. rewrite !printed_printed.
    rewrite <- ?app_assoc. reflexivity.
Qed.

(** X14.  At the end of standard input the [EOFError] of [input()] is
    caught by the [except Exception] handler: the pass prints "Unexpected
    error: EOF when reading a line" and "Please try again." after the menu
    and goes on to the next pass, with nothing but standard output changed;
    the loop is not left. *)
Theorem main_iteration_eof (k : K) :
  stdin k = [] ->
  main_iteration U ws X V k
  = (inr Continue,
     mkConsole (printed (menu_lines
                         ++ [[10] ++ py "Unexpected error: " ++ py "EOF when reading a line";
                             py "Please try again."]) (world k))
               [] (shown k)).
Proof.
  intros Hin. unfold main_iteration.
  assert (menu_try U ws X V k
          = (inl (Raise OtherException (py "EOF when reading a line")),
             mkConsole (printed menu_lines (world k)) [] (shown k))) as ->.
  { unfold menu_try. rewrite !bindC_say.
    erewrite bindC_raises by (apply input_eof; cbn [stdin]; exact Hin).
    cbn [world stdin shown]. rewrite !printed_printed. reflexivity. }
  cbn [exn_class derives_from_Exception exn_msg].
  rewrite !bindC_say. cbn [world stdin shown]. rewrite !printed_printed.
  rewrite <- ?app_assoc. reflexivity.
Qed.

(** What the [KeyboardInterrupt] handler does with the state it gets. *)
Lemma main_iteration_interrupted (k k1 : K) (e : exn) :
  menu_try U ws X V k = (inl e, k1) ->
  exn_class e = KeyboardInterrupt ->
  main_iteration U ws X V k
  = (inl (Raise SystemExit (py "0")),
     mkConsole (printed [[10; 10] ++ py "Application interrupted by user.";
                         py "Thank you for using the QR Code Generator!"] (world k1))
               (stdin k1) (shown k1)).
Proof.
  intros Hm He. unfold main_iteration. rewrite Hm, He.
  rewrite !bindC_say. cbn [world stdin shown]. rewrite printed_printed. reflexivity.
Qed.

(** X15.  Ctrl-C at either prompt ends [main] through [sys.exit(0)], after
    the two farewell lines, whatever is still waiting on standard input. *)
Theorem main_loop_interrupt (n : nat) (k : K) (rest : list Key) :
  (stdin k = CtrlC :: rest ->
   main_loop U ws X V (S n) k
   = (inl (Raise SystemExit (py "0")),
      mkConsole (printed (menu_lines
                          ++ [[10; 10] ++ py "Application interrupted by user.";
                              py "Thank you for using the QR Code Generator!"]) (world k))
                rest (shown k))) /\
  (forall text,
      stdin k = Line text :: CtrlC :: rest ->
      strip ws text = py "1" ->
      main_loop U ws X V (S n) k
      = (inl (Raise SystemExit (py "0")),
         mkConsole (printed (menu_lines
                             ++ [[10] ++ py "Enter the URL to generate QR code: ";
                                 [10; 10] ++ py "Application interrupted by user.";
                                 py "Thank you for using the QR Code Generator!"]) (world k))
                   rest (shown k))).
Proof.
  split.
  - intros Hin.
    assert (menu_try U ws X V k
            = (inl (Raise KeyboardInterrupt []),
               mkConsole (printed menu_lines (world k)) rest (shown k))) as Hm.
    { unfold menu_try. rewrite !bindC_say.
      erewrite bindC_raises by (apply input_ctrlc; cbn [stdin]; exact Hin).
      cbn [world stdin shown]. rewrite !printed_printed. reflexivity. }
    cbn [main_loop].
    rewrite (bindC_raises _ _ _ _ _ (main_iteration_interrupted _ _ _ Hm eq_refl)).
    cbn [world stdin shown]. rewrite printed_printed. reflexivity.
  - intros text Hin H1.
    assert (menu_try U ws X V k
            = (inl (Raise KeyboardInterrupt []),
               mkConsole (printed (menu_lines
                                   ++ [[10] ++ py "Enter the URL to generate QR code: "])
                                  (world k)) rest (shown k))) as Hm.
    { unfold menu_try. rewrite !bindC_say.
 erewrite bindC_runs by (apply input_line; cbn [stdin]; exact Hin).
 cbv zeta. cbn [world stdin shown]. rewrite !printed_printed. rewrite H1.
      change (str_eqb (py "1") (py "2")) with false.
      change (str_eqb (py "1") (py "1")) with true. cbv iota.
      erewrite bindC_raises by (apply input_ctrlc; reflexivity).
      cbn [world stdin shown]. rewrite !printed_printed. reflexivity. }
    cbn [main_loop].
    rewrite (bindC_raises _ _ _ _ _ (main_iteration_interrupted _ _ _ Hm eq_refl)).
    cbn [world stdin shown]. rewrite printed_printed, <- ?app_assoc. reflexivity.
Qed.

(** X16.  A [KeyboardInterrupt] that leaves [generate_qr_code] (Ctrl-C
    while the library or the disk is at work) ends [main] through
    [sys.exit(0)] as well. *)
Theorem main_loop_interrupted_generation (n : nat) (k : K) (t1 t2 : str)
        (rest : list Key) (e : exn) (w1 : State Image) :
  stdin k = Line t1 :: Line t2 :: rest ->
  strip ws t1 = py "1" ->
  strip ws t2 <> [] ->
  generate_qr_code U X (PyStr (strip ws t2)) PyNone
    (printed (menu_lines ++ [[10] ++ py "Enter the URL to generate QR code: ";
                             [10] ++ py "Generating QR code..."]) (world k))
  = (inl e, w1) ->
  exn_class e = KeyboardInterrupt ->
  main_loop U ws X V (S n) k
  = (inl (Raise SystemExit (py "0")),
     mkConsole (printed [[10; 10] ++ py "Application interrupted by user.";
                         py "Thank you for using the QR Code Generator!"] w1)
               rest (shown k)).
Proof.
  intros Hin H1 H2 Hg He.
  assert (menu_try U ws X V k = (inl e, mkConsole w1 rest (shown k))) as Hm.
  { unfold menu_try. rewrite !bindC_say.
 erewrite bindC_runs by (apply input_line; cbn [stdin]; exact Hin).
 cbv zeta. cbn [world stdin shown]. rewrite !printed_printed. rewrite H1.
    change (str_eqb (py "1") (py "2")) with false.
    change (str_eqb (py "1") (py "1")) with true. cbv iota.
    erewrite bindC_runs by (apply input_line; reflexivity).
    cbv zeta. destruct (strip ws t2) as [|c u] eqn:Hu; [done|]. cbn [length Nat.eqb].
    rewrite bindC_say. cbn [world stdin shown]. rewrite !printed_printed, <- ?app_assoc.
    erewrite bindC_raises; [reflexivity|].
    unfold liftM. cbn [world stdin shown].
    match goal with
    | |- context [printed ?l (world k)] =>
        change l with (menu_lines ++ [[10] ++ py "Enter the URL to generate QR code: ";
                                      [10] ++ py "Generating QR code..."])
    end.
    rewrite Hg. reflexivity. }
  cbn [main_loop].
  rewrite (bindC_raises _ _ _ _ _ (main_iteration_interrupted _ _ _ Hm He)).
  reflexivity.
Qed.

(** X18.  The loop is left normally only through choice "2": a pass that
    ends in [break] has read a line that strips to "2", and has printed the
    menu and "Goodbye!" and nothing else. *)
Theorem main_iteration_break (k k' : K) :
  main_iteration U ws X V k = (inr Break, k') ->
  exists text rest,
    stdin k = Line text :: rest /\ strip ws text = py "2" /\
    k' = mkConsole (printed (menu_lines ++ [py "Goodbye!"]) (world k)) rest (shown k).
Proof.
  unfold main_iteration. destruct (menu_try U ws X V k) as [[e|f] k1] eqn:Hm.
  - destruct (exn_class e); cbn [derives_from_Exception];
      rewrite ?bindC_say; unfold retC, sys_exit_0, raiseC; discriminate.
  - intros [= -> ->]. unfold menu_try in Hm. rewrite !bindC_say in Hm.
    apply bindC_returns in Hm as (line & k2 & Hinp & Hm).
    cbn [world stdin shown] in Hinp.
    destruct (stdin k) as [|[text|] rest] eqn:Hs.
    + rewrite input_eof in Hinp by reflexivity. discriminate.
    + rewrite (input_line _ text rest) in Hinp by reflexivity.
      injection Hinp as <- <-. cbv zeta in Hm.
      destruct (str_eqb (strip ws text) (py "2")) eqn:E2.
      * apply str_eqb_eq in E2. rewrite bindC_say in Hm. injection Hm as <-.
        exists text, rest. split; [reflexivity|]. split; [exact E2|].
        cbn [world stdin shown]. rewrite !printed_printed. reflexivity.
      * exfalso. destruct (str_eqb (strip ws text) (py "1")).
        -- apply bindC_returns in Hm as (line2 & k3 & _ & Hm). cbv zeta in Hm.
           destruct (Nat.eqb (length (strip ws line2)) 0).
           ++ rewrite bindC_say in Hm. discriminate.
           ++ rewrite bindC_say in Hm.
              apply bindC_returns in Hm as ([[s m] oi] & k4 & _ & Hm).
              apply bindC_returns in Hm as (u1 & k5 & _ & Hm).
              apply bindC_returns in Hm as (u2 & k6 & _ & Hm).
              discriminate.
        -- rewrite bindC_say in Hm. discriminate.
    + rewrite (input_ctrlc _ rest) in Hinp by reflexivity. discriminate.
Qed.

Lemma display_qr_info_runs (url : str) (success : bool) (message : str) (w : State Image) :
  display_qr_info url success message w
  = (inr tt,
     printed [[10] ++ repeat 61 60; py "Input URL: " ++ url;
              py "Status: " ++ (if success then py "SUCCESS" else py "FAILED");
              py "Message: " ++ message; repeat 61 60] w).
Proof.
  unfold display_qr_info, bind, print, printed. cbn [self dirs files calls stdout].
  rewrite <- !app_assoc. reflexivity.
Qed.

(** The inner [try]: a viewer failure inside [Exception] is only reported. *)
Lemma display_image_runs (img : Image) (k : K) :
  (forall w i e, V w i = Some e -> derives_from_Exception (exn_class e) = true) ->
  exists k',
    display_image V (Some img) k = (inr tt, k') /\
    stdin k' = stdin k /\ files (world k') = files (world k) /\
    (shown k' = shown k \/ shown k' = shown k ++ [img]).
Proof.
  intros HV. unfold display_image, show_result, show, bindC at 1.
  destruct (V (world k) img) as [e|] eqn:E.
  - rewrite (HV _ _ _ E). rewrite !bindC_say. eexists. split; [reflexivity|].
    cbn [world stdin shown printed files]. split; [reflexivity|]. split; [reflexivity|]. by left.
  - rewrite say_runs. eexists. split; [reflexivity|].
    cbn [world stdin shown printed files]. split; [reflexivity|]. split; [reflexivity|]. by right.
Qed.

(** X19.  With a library and a disk that do not fail, choice "1" followed
    by a valid URL saves the image under the default name and goes back to
    the menu, whether or not the viewer can show the image: a viewer
    failure is reported, not raised. *)
Theorem main_iteration_generates (k : K) (t1 t2 : str) (rest : list Key) :
  reliable X ->
  (forall w i e, V w i = Some e -> derives_from_Exception (exn_class e) = true) ->
  stdin k = Line t1 :: Line t2 :: rest ->
  strip ws t1 = py "1" ->
  validate_url (PyStr (strip ws t2)) = inr true ->
  exists k' img,
    main_iteration U ws X V k = (inr Continue, k') /\
    stdin k' = rest /\
    files (world k') !! (py "qr_codes_output/" ++ safe_url U (strip ws t2) ++ py ".png")
    = Some img /\
    (shown k' = shown k \/ shown k' = shown k ++ [img]).
Proof.
  intros Hrel HV Hin H1 Hv.
  assert (exists k' img,
             menu_try U ws X V k = (inr Continue, k') /\
             stdin k' = rest /\
             files (world k') !! (py "qr_codes_output/" ++ safe_url U (strip ws t2) ++ py ".png")
             = Some img /\
             (shown k' = shown k \/ shown k' = shown k ++ [img]))
    as (k' & img & Hm & Hrest).
  2: { exists k', img. split; [|exact Hrest]. unfold main_iteration. rewrite Hm. reflexivity. }
  unfold menu_try. rewrite !bindC_say.
  erewrite bindC_runs by (apply input_line; cbn [stdin]; exact Hin).
  cbv zeta. cbn [world stdin shown]. rewrite !printed_printed. rewrite H1.
  change (str_eqb (py "1") (py "2")) with false.
  change (str_eqb (py "1") (py "1")) with true. cbv iota.
  erewrite bindC_runs by (apply input_line; reflexivity).
  cbv zeta.
  assert (Nat.eqb (length (strip ws t2)) 0 = false) as ->.
  { rewrite validate_url_str in Hv. injection Hv as Hv.
    apply andb_true_iff in Hv as [Hv _]. by apply negb_true_iff. }
  rewrite bindC_say. cbn [world stdin shown].
  set (w0 := printed _ (printed _ (printed _ (world k)))).
  destruct (generate_runs U X (strip ws t2) PyNone _ w0 Hrel Hv
              (output_filename_default U (strip ws t2)))
    as (img & w1 & Hrun & Hfile).
  rewrite output_path_relative in Hrun, Hfile by apply default_name_relative.
  erewrite bindC_runs by (unfold liftM; cbn [world stdin shown]; rewrite Hrun; reflexivity).
  cbv iota beta.
  erewrite bindC_runs
    by (unfold liftM; cbn [world stdin shown]; rewrite display_qr_info_runs; reflexivity).
  cbn [fst snd].
  match goal with
  | |- context [bindC (display_image V (Some img)) _ ?kk] =>
      destruct (display_image_runs img kk HV) as (k2 & Hd & Hs2 & Hf2 & Hsh2)
  end.
  rewrite (bindC_runs _ _ _ _ _ Hd).
  exists k2, img. split; [reflexivity|].
  cbn [world stdin shown printed files] in Hs2, Hf2, Hsh2.
  split; [exact Hs2|]. split; [rewrite Hf2; exact Hfile | exact Hsh2].
Qed.

End Session.

(** ** Concrete runs of the further properties *)

Lemma generate_qr_code_calls_witness :
  exists payload name,
    format_url (PyStr (py "example.com")) = inr payload /\
    output_filename ascii_only (PyStr (py "example.com")) PyNone = inr name /\
    calls (snd (generate_qr_code ascii_only quiet (PyStr (py "example.com")) PyNone fresh)) =
      calls fresh
      ++ [EvQRCode (version (self fresh)) (error_correction (self fresh))
                   (box_size (self fresh)) (border (self fresh));
          EvAddData payload; EvMake true;
          EvMakeImage (py "black") (py "white");
          EvPathExists (py "qr_codes_output")]
      ++ (if path_exists (py "qr_codes_output") fresh then []
          else [EvMakedirs (py "qr_codes_output")])
      ++ [EvSave (output_path name)].
Proof.
  apply (generate_qr_code_calls ascii_only quiet (PyStr (py "example.com")) PyNone fresh _
           (success_message (py "qr_codes_output/examplecom.png"))
           (Some (py "https://example.com"))).
  vm_compute. reflexivity.
Defined.

Lemma generate_qr_code_directory_witness :
  path_exists (py "qr_codes_output")
    (snd (generate_qr_code ascii_only quiet (PyStr (py "example.com")) PyNone fresh)) = true.
Proof.
  apply (generate_qr_code_directory ascii_only quiet (PyStr (py "example.com")) PyNone fresh _
           (success_message (py "qr_codes_output/examplecom.png"))
           (Some (py "https://example.com"))).
  vm_compute. reflexivity.
Defined.


Lemma generate_qr_code_result_witness :
  exists e,
    derives_from_Exception (exn_class e) = true /\
    fst (generate_qr_code_try ascii_only disk_full (PyStr (py "example.com")) PyNone fresh)
    = inl e /\
    py "Error generating QR code: No space left on device"
    = py "Error generating QR code: " ++ exn_msg e.
Proof.
  destruct (generate_qr_code_result ascii_only disk_full (PyStr (py "example.com")) PyNone
              fresh
              (snd (generate_qr_code ascii_only disk_full (PyStr (py "example.com")) PyNone
                      fresh))
              false (py "Error generating QR code: No space left on device") None)
    as [[H _]|[(_ & _ & H & _)|(_ & _ & H)]].
  - vm_compute. reflexivity.
  - discriminate H.
  - discriminate H.
  - exact H.
Defined.

Lemma generate_qr_code_overflow_witness :
  exists st',
    generate_qr_code ascii_only overflowing (PyStr (py "example.com")) PyNone fresh
    = (inr (false, py "Error generating QR code: " ++ py "too much data", None), st') /\
    dirs st' = dirs fresh /\ files st' = files fresh /\
    calls st' = calls fresh
                ++ [EvQRCode (version (self fresh)) (error_correction (self fresh))
                             (box_size (self fresh)) (border (self fresh));
                    EvAddData (py "https://example.com"); EvMake true].
Proof.
  apply (generate_qr_code_overflow ascii_only overflowing (py "example.com") PyNone fresh
           (py "https://example.com") [] (py "https://example.com")
           (Raise DataOverflowError (py "too much data"))); reflexivity.
Defined.

Lemma trailing_slash_collides_witness :
  py "example.com" ++ py "/" <> py "example.com" /\
  validate_url (PyStr (py "example.com" ++ py "/")) = inr true /\
  output_filename ascii_only (PyStr (py "example.com" ++ py "/")) PyNone
  = output_filename ascii_only (PyStr (py "example.com")) PyNone /\
  exists n1 n2,
    format_url (PyStr (py "example.com")) = inr n1 /\
    format_url (PyStr (py "example.com" ++ py "/")) = inr n2 /\ n1 <> n2.
Proof. apply (trailing_slash_collides ascii_only (py "example.com")). reflexivity. Defined.

Lemma explicit_filename_path_witness :
  files (snd (generate_qr_code ascii_only quiet (PyStr (py "example.com"))
                (PyStr (py "/tmp/qr.png")) fresh)) !! py "/tmp/qr.png"
  = Some (py "https://example.com") /\
  files (snd (generate_qr_code ascii_only quiet (PyStr (py "example.com"))
                (PyStr (py "../up")) fresh)) !! py "qr_codes_output/../up.png"
  = Some (py "https://example.com").
Proof.
  split.
  - destruct (explicit_filename_path ascii_only quiet (PyStr (py "example.com"))
                (py "/tmp/qr.png") fresh
                (snd (generate_qr_code ascii_only quiet (PyStr (py "example.com"))
                        (PyStr (py "/tmp/qr.png")) fresh))
                (success_message (py "/tmp/qr.png"))
                (Some (py "https://example.com")))
      as (name & img & Hname & Himg & Habs & _);
      [discriminate | vm_compute; reflexivity |].
    destruct (Habs eq_refl) as [Hm Hfile]. injection Himg as <-.
    unfold success_message in Hm. apply app_inv_head in Hm. rewrite <- Hm in Hfile.
    exact Hfile.
  - destruct (explicit_filename_path ascii_only quiet (PyStr (py "example.com"))
                (py "../up") fresh
                (snd (generate_qr_code ascii_only quiet (PyStr (py "example.com"))
                        (PyStr (py "../up")) fresh))
                (success_message (py "qr_codes_output/../up.png"))
                (Some (py "https://example.com")))
      as (name & img & Hname & Himg & _ & Hrel);
      [discriminate | vm_compute; reflexivity |].
    destruct (Hrel eq_refl) as [Hm Hfile]. injection Himg as <-.
    unfold success_message in Hm. apply app_inv_head in Hm. rewrite <- Hm in Hfile.
    exact Hfile.
Defined.

Lemma main_loop_quit_witness :
  exists k',
    main_loop ascii_only ascii_space quiet viewer_ok 1 (desk [Line (py " 2 "); Line (py "1")])
    = (inr Returned, k') /\
    stdin k' = [Line (py "1")] /\
    world k' = printed (menu_lines ++ [py "Goodbye!"])
                       (world (desk [Line (py " 2 "); Line (py "1")])) /\
    shown k' = shown (desk [Line (py " 2 "); Line (py "1")]).
Proof.
  apply (main_loop_quit ascii_only ascii_space quiet viewer_ok 0
           (desk [Line (py " 2 "); Line (py "1")]) (py " 2 ") [Line (py "1")]);
    reflexivity.
Defined.

Lemma main_iteration_bad_input_witness :
  main_iteration ascii_only ascii_space quiet viewer_ok
    (desk [Line (py "1"); Line (py "   ")])
  = (inr Continue,
     mkConsole (printed (menu_lines
                         ++ [[10] ++ py "Enter the URL to generate QR code: ";
                             py "Error: URL cannot be empty."])
                        (world (desk [Line (py "1"); Line (py "   ")])))
               [] (shown (desk [Line (py "1"); Line (py "   ")]))).
Proof.
  apply (proj2 (main_iteration_bad_input ascii_only ascii_space quiet viewer_ok
                  (desk [Line (py "1"); Line (py "   ")]) (py "1") [Line (py "   ")]
                  eq_refl) (py "   ") []); reflexivity.
Defined.

Lemma main_iteration_eof_witness :
  main_iteration ascii_only ascii_space quiet viewer_ok (desk [])
  = (inr Continue,
     mkConsole (printed (menu_lines
                         ++ [[10] ++ py "Unexpected error: " ++ py "EOF when reading a line";
                             py "Please try again."]) (world (desk [])))
               [] (shown (desk []))).
Proof.
  apply (main_iteration_eof ascii_only ascii_space quiet viewer_ok (desk [])). reflexivity.
Defined.

Lemma main_loop_interrupted_generation_witness :
  main_loop ascii_only ascii_space interrupted viewer_ok 1
    (desk [Line (py "1"); Line (py "example.com")])
  = (inl (Raise SystemExit (py "0")),
     mkConsole
       (printed [[10; 10] ++ py "Application interrupted by user.";
                 py "Thank you for using the QR Code Generator!"]
          (snd (generate_qr_code ascii_only interrupted (PyStr (py "example.com")) PyNone
                  (printed (menu_lines ++ [[10] ++ py "Enter the URL to generate QR code: ";
                                           [10] ++ py "Generating QR code..."])
                           (world (desk [Line (py "1"); Line (py "example.com")]))))))
       [] (shown (desk [Line (py "1"); Line (py "example.com")]))).
Proof.
  apply (main_loop_interrupted_generation ascii_only ascii_space interrupted viewer_ok 0
           (desk [Line (py "1"); Line (py "example.com")]) (py "1") (py "example.com") []
           (Raise KeyboardInterrupt [])).
  - reflexivity.
  - reflexivity.
  - discriminate.
  - vm_compute. reflexivity.
  - reflexivity.
Defined.

Lemma main_iteration_break_witness :
  exists text rest,
    stdin (desk [Line (py "2")]) = Line text :: rest /\ strip ascii_space text = py "2" /\
    snd (main_iteration ascii_only ascii_space quiet viewer_ok (desk [Line (py "2")]))
    = mkConsole (printed (menu_lines ++ [py "Goodbye!"]) (world (desk [Line (py "2")])))
                rest (shown (desk [Line (py "2")])).
Proof.
  apply (main_iteration_break ascii_only ascii_space quiet viewer_ok (desk [Line (py "2")])).
  vm_compute. reflexivity.
Defined.

Lemma main_iteration_generates_witness :
  exists k' img,
    main_iteration ascii_only ascii_space quiet viewer_missing
      (desk [Line (py "1"); Line (py "  example.com "); Line (py "2")])
    = (inr Continue, k') /\
    stdin k' = [Line (py "2")] /\
    files (world k')
      !! (py "qr_codes_output/" ++ safe_url ascii_only (strip ascii_space (py "  example.com "))
          ++ py ".png") = Some img /\
    (shown k' = shown (desk [Line (py "1"); Line (py "  example.com "); Line (py "2")]) \/
     shown k' = shown (desk [Line (py "1"); Line (py "  example.com "); Line (py "2")]) ++ [img]).
Proof.
  apply (main_iteration_generates ascii_only ascii_space quiet viewer_missing
           (desk [Line (py "1"); Line (py "  example.com "); Line (py "2")])
           (py "1") (py "  example.com ") [Line (py "2")]).
  - exact quiet_reliable.
  - intros w i e [= <-]. reflexivity.
  - reflexivity.
  - reflexivity.
  - reflexivity.
Defined.

Lemma generate_qr_code_requests_witness :
  exists tr,
    calls (snd (generate_qr_code ascii_only disk_full (PyStr (py "example.com"))
                  (PyStr (py "../up")) fresh)) = calls fresh ++ tr /\
    (forall p, In (EvSave p) tr ->
               exists name,
                 output_filename ascii_only (PyStr (py "example.com")) (PyStr (py "../up"))
                 = inr name /\ p = output_path name) /\
    (forall p, In (EvMakedirs p) tr ->
               p = py "qr_codes_output" /\
               path_exists (py "qr_codes_output") fresh = false) /\
    (length tr <= 7)%nat.
Proof.
  exact (generate_qr_code_requests ascii_only disk_full (PyStr (py "example.com"))
           (PyStr (py "../up")) fresh).
Defined.

Lemma main_loop_interrupt_witness :
  main_loop ascii_only ascii_space quiet viewer_ok 1 (desk [CtrlC; Line (py "1")])
  = (inl (Raise SystemExit (py "0")),
     mkConsole (printed (menu_lines
                         ++ [[10; 10] ++ py "Application interrupted by user.";
                             py "Thank you for using the QR Code Generator!"])
                        (world (desk [CtrlC; Line (py "1")])))
               [Line (py "1")] (shown (desk [CtrlC; Line (py "1")]))).
Proof.
  apply (proj1 (main_loop_interrupt ascii_only ascii_space quiet viewer_ok 0
                  (desk [CtrlC; Line (py "1")]) [Line (py "1")])).
  reflexivity.
Defined.
